(** * geotrace/locator: the geolocation client of [locator.go]

    A shallow embedding of [New] and of the standard-dialect [Get], with the
    Go runtime the package calls into (net/url, net/http, encoding/json)
    kept apart from the package's own code.

    Go strings are byte sequences, modelled as [string]; [time.Duration] is
    an [int64] count of nanoseconds, modelled as [Z]; the pair
    [(value, error)] a Go function returns is a [Result] or, where both
    components can be nil, a pair of options. *)

From Stdlib Require Import ZArith String Ascii List Bool Lia.
From stdpp Require Import base gmap strings list.

Open Scope string_scope.
Open Scope Z_scope.

(** ** Errors *)

(** An [error] is either a value of [errors.New], a pointer to a fresh
    [errorString] which Go compares by address, or an error built inside one
    of the libraries, of which only the text is kept. *)
Inductive error : Type :=
| errorString (addr : nat) (s : string)
| otherError (s : string).

Definition Error (e : error) : string :=
  match e with
  | errorString _ s => s
  | otherError s => s
  end.

(** Address of an [errors.New] value. *)
Definition addr_of (e : error) : option nat :=
  match e with
  | errorString a _ => Some a
  | otherError _ => None
  end.

Inductive Result (A : Type) : Type :=
| Ok (a : A)
| Err (e : error).
Arguments Ok {A} a.
Arguments Err {A} e.

(** ** Data model *)

Definition Duration : Type := Z.
Definition Second : Duration := 1000000000.

Record Fallbacks : Type := mkFallbacks { LAC : bool; IP : bool }.

(** Modelled from the spec: the declaration of [CellTower] is not in
    [locator.go]; section 3 gives a tower as mobile country and network
    code, location area code, cell id and signal strength. *)
Record CellTower : Type := mkCellTower {
  MobileCountryCode : Z;
  MobileNetworkCode : Z;
  LocationAreaCode : Z;
  CellId : Z;
  SignalStrength : Z
}.

(** Modelled from the spec: the declaration of [WifiAccessPoint] is not in
    [locator.go]; section 3 gives an access point as a MAC identifier and a
    signal strength. *)
Record WifiAccessPoint : Type := mkWifiAccessPoint {
  MacAddress : string;
  WifiSignalStrength : Z
}.

(** A pointer to a [Fallbacks] object: [None] is nil, [Some p] the object at
    index [p] of the store. *)
Definition FallbacksPtr : Type := option nat.

(** Modelled from the spec: the declaration of [Request] is not in
    [locator.go].  [Get] uses the fields [ConsiderIp], [Fallbacks] (a
    pointer), [RadioType] and [IPAddress]; section 3 adds the observed
    towers and access points.  The two slices are never written by the
    package and are kept as lists. *)
Record Request : Type := mkRequest {
  RadioType : string;
  CellTowers : list CellTower;
  WifiAccessPoints : list WifiAccessPoint;
  IPAddress : string;
  ConsiderIp : bool;
  ReqFallbacks : FallbacksPtr
}.

Definition set_ConsiderIp (b : bool) (r : Request) : Request :=
  mkRequest (RadioType r) (CellTowers r) (WifiAccessPoints r) (IPAddress r)
            b (ReqFallbacks r).

Definition set_Fallbacks (p : FallbacksPtr) (r : Request) : Request :=
  mkRequest (RadioType r) (CellTowers r) (WifiAccessPoints r) (IPAddress r)
            (ConsiderIp r) p.

Definition set_RadioType (s : string) (r : Request) : Request :=
  mkRequest s (CellTowers r) (WifiAccessPoints r) (IPAddress r)
            (ConsiderIp r) (ReqFallbacks r).

Definition set_IPAddress (s : string) (r : Request) : Request :=
  mkRequest (RadioType r) (CellTowers r) (WifiAccessPoints r) s
            (ConsiderIp r) (ReqFallbacks r).

(** What [json.Marshal] sees of a request: the struct with the [Fallbacks]
    pointer followed. *)
Record WireRequest : Type := mkWireRequest {
  wRadioType : string;
  wCellTowers : list CellTower;
  wWifiAccessPoints : list WifiAccessPoint;
  wIPAddress : string;
  wConsiderIp : bool;
  wFallbacks : option Fallbacks
}.

(** Modelled from the spec: the declaration of [Response] is not in
    [locator.go]; section 3 gives a latitude/longitude pair and an accuracy
    radius.  A float64 is kept as its IEEE-754 bit pattern. *)
Record Response : Type := mkResponse {
  Lat : Z;
  Lng : Z;
  Accuracy : Z
}.

(** ** Process-wide variables (locator.go, lines 12-16) *)

Record Globals : Type := mkGlobals {
  RequestTimeout : Duration;
  IgnoreIPMethod : bool;
  UserAgent : string
}.

Definition initial_globals : Globals :=
  {| RequestTimeout := Second * 30;
     IgnoreIPMethod := false;
     UserAgent := "GeoTrack/1.0" |}.

(** ** Service URLs (locator.go, lines 26-30) *)

Definition Mozilla : string := "https://location.services.mozilla.com/v1/geolocate".
Definition Google : string := "https://www.googleapis.com/geolocation/v1/geolocate".
Definition Yandex : string := "http://api.lbs.yandex.net/geolocation".

(** ** net/http *)

Record HttpRequest : Type := mkHttpRequest {
  Method : string;
  URL : string;
  Header : gmap string (list string);
  Body : string
}.

Record HttpResponse : Type := mkHttpResponse {
  StatusCode : Z;
  RespBody : string
}.

Record Client : Type := mkClient { Timeout : Duration }.

(** [Header.Set]: the values of the key are replaced by the single value.
    The three keys [Get] uses are already in canonical MIME form. *)
Definition Header_Set (k v : string) (r : HttpRequest) : HttpRequest :=
  mkHttpRequest (Method r) (URL r) (<[k := [v]]> (Header r)) (Body r).

Definition StatusBadRequest : Z := 400.
Definition StatusForbidden : Z := 403.
Definition StatusNotFound : Z := 404.

(** [http.StatusText]: the reason phrases of net/http; the empty string for
    a code it does not know. *)
Definition http_StatusText (code : Z) : string :=
  match code with
  | 100 => "Continue"
  | 101 => "Switching Protocols"
  | 102 => "Processing"
  | 103 => "Early Hints"
  | 200 => "OK"
  | 201 => "Created"
  | 202 => "Accepted"
  | 203 => "Non-Authoritative Information"
  | 204 => "No Content"
  | 205 => "Reset Content"
  | 206 => "Partial Content"
  | 207 => "Multi-Status"
  | 208 => "Already Reported"
  | 226 => "IM Used"
  | 300 => "Multiple Choices"
  | 301 => "Moved Permanently"
  | 302 => "Found"
  | 303 => "See Other"
  | 304 => "Not Modified"
  | 305 => "Use Proxy"
  | 307 => "Temporary Redirect"
  | 308 => "Permanent Redirect"
  | 400 => "Bad Request"
  | 401 => "Unauthorized"
  | 402 => "Payment Required"
  | 403 => "Forbidden"
  | 404 => "Not Found"
  | 405 => "Method Not Allowed"
  | 406 => "Not Acceptable"
  | 407 => "Proxy Authentication Required"
  | 408 => "Request Timeout"
  | 409 => "Conflict"
  | 410 => "Gone"
  | 411 => "Length Required"
  | 412 => "Precondition Failed"
  | 413 => "Request Entity Too Large"
  | 414 => "Request URI Too Long"
  | 415 => "Unsupported Media Type"
  | 416 => "Requested Range Not Satisfiable"
  | 417 => "Expectation Failed"
  | 418 => "I'm a teapot"
  | 421 => "Misdirected Request"
  | 422 => "Unprocessable Entity"
  | 423 => "Locked"
  | 424 => "Failed Dependency"
  | 425 => "Too Early"
  | 426 => "Upgrade Required"
  | 428 => "Precondition Required"
  | 429 => "Too Many Requests"
  | 431 => "Request Header Fields Too Large"
  | 451 => "Unavailable For Legal Reasons"
  | 500 => "Internal Server Error"
  | 501 => "Not Implemented"
  | 502 => "Bad Gateway"
  | 503 => "Service Unavailable"
  | 504 => "Gateway Timeout"
  | 505 => "HTTP Version Not Supported"
  | 506 => "Variant Also Negotiates"
  | 507 => "Insufficient Storage"
  | 508 => "Loop Detected"
  | 510 => "Not Extended"
  | 511 => "Network Authentication Required"
  | _ => EmptyString
  end.

(** ** net/url *)

Definition byte_between (lo hi c : ascii) : bool :=
  ((N_of_ascii lo <=? N_of_ascii c) && (N_of_ascii c <=? N_of_ascii hi))%N.

Definition is_letter (c : ascii) : bool :=
  byte_between "a" "z" c || byte_between "A" "Z" c.

Definition is_digit (c : ascii) : bool := byte_between "0" "9" c.

(** [shouldEscape(c, encodeQueryComponent)]: letters, digits and the marks
    [-], [_], [.], [~] are kept, every other byte is escaped. *)
Definition shouldEscape (c : ascii) : bool :=
  if is_letter c || is_digit c then false
  else if (c =? "-")%char || (c =? "_")%char || (c =? ".")%char || (c =? "~")%char
       then false
       else true.

Definition upperhex (n : N) : ascii :=
  match String.get (N.to_nat n) "0123456789ABCDEF" with
  | Some c => c
  | None => "0"%char
  end.

(** [url.QueryEscape]: a space becomes [+], an escaped byte [%XX]. *)
Fixpoint url_QueryEscape (s : string) : string :=
  match s with
  | EmptyString => EmptyString
  | String c s' =>
      if (c =? " ")%char then String "+" (url_QueryEscape s')
      else if shouldEscape c
           then String "%" (String (upperhex (N.shiftr (N_of_ascii c) 4))
                  (String (upperhex (N.land (N_of_ascii c) 15))
                     (url_QueryEscape s')))
           else String c (url_QueryEscape s')
  end.

Definition stringContainsCTLByte (s : string) : bool :=
  existsb (fun c => (N_of_ascii c <? 32)%N || (N_of_ascii c =? 127)%N)
          (list_ascii_of_string s).

(** [getScheme]: the scan of the prefix up to the first colon.  [i] is the
    index of the first byte of [s] in [rawURL]. *)
Fixpoint getScheme_from (rawURL : string) (i : nat) (s : string)
  : Result (string * string) :=
  match s with
  | EmptyString => Ok (EmptyString, rawURL)
  | String c s' =>
      if is_letter c then getScheme_from rawURL (S i) s'
      else if is_digit c || (c =? "+")%char || (c =? "-")%char || (c =? ".")%char
      then (if Nat.eqb i 0 then Ok (EmptyString, rawURL)
            else getScheme_from rawURL (S i) s')
      else if (c =? ":")%char
      then (if Nat.eqb i 0 then Err (otherError "missing protocol scheme")
            else Ok (substring 0 i rawURL, s'))
      else Ok (EmptyString, rawURL)
  end.

Definition getScheme (rawURL : string) : Result (string * string) :=
  getScheme_from rawURL 0 rawURL.

Definition lower_byte (c : ascii) : ascii :=
  if byte_between "A" "Z" c then ascii_of_N (N_of_ascii c + 32) else c.

Fixpoint strings_ToLower (s : string) : string :=
  match s with
  | EmptyString => EmptyString
  | String c s' => String (lower_byte c) (strings_ToLower s')
  end.

(** [strings.Cut(s, sep)] for a one-byte separator: the text before the
    first [sep], and the text after it when there is one. *)
Fixpoint strings_Cut (sep : ascii) (s : string) : string * option string :=
  match s with
  | EmptyString => (EmptyString, None)
  | String c s' =>
      if (c =? sep)%char then (EmptyString, Some s')
      else let (before, after) := strings_Cut sep s' in (String c before, after)
  end.

Definition strings_Count (sep : ascii) (s : string) : nat :=
  List.length (List.filter (fun c => (c =? sep)%char) (list_ascii_of_string s)).

(** [strings.HasSuffix(s, sep)] for a one-byte suffix. *)
Fixpoint strings_HasSuffix1 (sep : ascii) (s : string) : bool :=
  match s with
  | EmptyString => false
  | String c EmptyString => (c =? sep)%char
  | String _ s' => strings_HasSuffix1 sep s'
  end.

(** The raw query [parse] splits off: what follows the first [?], unless
    the only [?] is the last byte. *)
Definition split_query (rest : string) : string * string :=
  if strings_HasSuffix1 "?" rest && Nat.eqb (strings_Count "?" rest) 1
  then (substring 0 (String.length rest - 1) rest, EmptyString)
  else match strings_Cut "?" rest with
       | (before, Some after) => (before, after)
       | (before, None) => (before, EmptyString)
       end.

(** The [RawQuery] field that [url.Parse] computes, as [http.NewRequest]
    does for the outgoing request: the fragment is cut off, then the scheme,
    and the query is split from what remains. *)
Definition RawQuery (rawURL : string) : string :=
  match getScheme (fst (strings_Cut "#" rawURL)) with
  | Ok (_, rest) => snd (split_query rest)
  | Err _ => EmptyString
  end.

(** ** The Go runtime the package calls into

    What lies beyond the package and is not modelled in full: the quoting of
    a URL in an error text, the authority and path stage of [parse], the
    [url.Parse] behind [http.NewRequest], the JSON encoder and decoder, and
    the HTTP exchange of [Client.Do] with the remote service. *)
Record Runtime : Type := mkRuntime {
  strconv_Quote : string -> string;
  url_parse_rest : string -> string -> option error;
  url_Parse : string -> option error;
  json_Marshal : WireRequest -> Result string;
  client_Do : Duration -> HttpRequest -> Result HttpResponse;
  json_Decode : string -> Result Response
}.

(** [&url.Error{Op, URL, Err}] and its text. *)
Definition url_Error (rt : Runtime) (op url : string) (err : error) : error :=
  otherError (op +:+ " " +:+ strconv_Quote rt url +:+ ": " +:+ Error err).

(** [parse(rawURL, true)] of net/url: [None] when the URL is accepted. *)
Definition parse_viaRequest (rt : Runtime) (rawURL : string) : option error :=
  if stringContainsCTLByte rawURL
  then Some (otherError "net/url: invalid control character in URL")
  else if String.eqb rawURL EmptyString then Some (otherError "empty url")
  else if String.eqb rawURL "*" then None
  else match getScheme rawURL with
       | Err e => Some e
       | Ok (scheme, rest) =>
           let scheme := strings_ToLower scheme in
           let rest := fst (split_query rest) in
           if negb (String.prefix "/" rest)
           then (if negb (String.eqb scheme EmptyString) then None
                 else Some (otherError "invalid URI for request"))
           else url_parse_rest rt scheme rest
       end.

Definition url_ParseRequestURI (rt : Runtime) (rawURL : string) : option error :=
  match parse_viaRequest rt rawURL with
  | Some err => Some (url_Error rt "parse" rawURL err)
  | None => None
  end.

(** [http.NewRequest]: the method is always the valid ["POST"] here, so the
    only failure is that of [url.Parse]; the header map starts empty. *)
Definition http_NewRequest (rt : Runtime) (method url body : string)
  : Result HttpRequest :=
  match url_Parse rt url with
  | Some err => Err err
  | None => Ok (mkHttpRequest method url ∅ body)
  end.

(** ** State and trace of a call

    The store holds the [Fallbacks] objects allocated so far, indexed by
    address, and the next free [errorString] address.  A call also leaves a
    trace of what it did to the outside: the requests handed to
    [Client.Do], each with the timeout of the client that sent it, and the
    closing of a response body. *)
Record World : Type := mkWorld {
  heap : list Fallbacks;
  next_err : nat
}.

Inductive Event : Type :=
| EvDo (timeout : Duration) (r : HttpRequest)
| EvClose.

Definition M (A : Type) : Type := World -> A * World * list Event.

#[global] Instance M_ret : MRet M := fun A a w => (a, w, []).

#[global] Instance M_bind : MBind M := fun A B f m w =>
  let '(a, w1, t1) := m w in
  let '(b, w2, t2) := f a w1 in
  (b, w2, (t1 ++ t2)%list).

Definition result_of {A} (r : A * World * list Event) : A := r.1.1.
Definition world_of {A} (r : A * World * list Event) : World := r.1.2.
Definition trace_of {A} (r : A * World * list Event) : list Event := r.2.

(** [&Fallbacks{...}]: a fresh object at the end of the store. *)
Definition new_Fallbacks (v : Fallbacks) : M nat := fun w =>
  (List.length (heap w), mkWorld (heap w ++ [v])%list (next_err w), []).

(** [errors.New]: a fresh [errorString]. *)
Definition errors_New (s : string) : M error := fun w =>
  (errorString (next_err w) s, mkWorld (heap w) (S (next_err w)), []).

(** Following a [Fallbacks] pointer in a store. *)
Definition deref (h : list Fallbacks) (p : FallbacksPtr) : option Fallbacks :=
  match p with
  | Some a => h !! a
  | None => None
  end.

Definition wire (h : list Fallbacks) (r : Request) : WireRequest :=
  mkWireRequest (RadioType r) (CellTowers r) (WifiAccessPoints r)
                (IPAddress r) (ConsiderIp r) (deref h (ReqFallbacks r)).

(** [json.Marshal(req)], which reads the store through the pointer. *)
Definition marshal (rt : Runtime) (r : Request) : M (Result string) := fun w =>
  (json_Marshal rt (wire (heap w) r), w, []).

(** [c.Do(httpReq)] *)
Definition Client_Do (rt : Runtime) (c : Client) (r : HttpRequest)
  : M (Result HttpResponse) := fun w =>
  (client_Do rt (Timeout c) r, w, [EvDo (Timeout c) r]).

(** [resp.Body.Close()] *)
Definition Body_Close : M unit := fun w => (tt, w, [EvClose]).

(** ** Package variables (locator.go, lines 19-23) *)

Definition empty_world : World := mkWorld [] 0.

Definition package_init : M (error * error * error) :=
  b ← errors_New (http_StatusText StatusBadRequest);
  f ← errors_New (http_StatusText StatusForbidden);
  n ← errors_New (http_StatusText StatusNotFound);
  mret (b, f, n).

Definition ErrBadRequest : error := (result_of (package_init empty_world)).1.1.
Definition ErrForbidden : error := (result_of (package_init empty_world)).1.2.
Definition ErrNotFound : error := (result_of (package_init empty_world)).2.

(** The store once the package is initialised. *)
Definition start_world : World := world_of (package_init empty_world).

(** ** Locators (locator.go, lines 32-42) *)

Record base : Type := mkBase {
  serviceUrl : string;
  client : Client
}.

(** The struct [yandex] is declared outside [locator.go]; [New] fills its
    fields [apiKey] and [client]. *)
Record yandex : Type := mkYandex {
  y_apiKey : string;
  y_client : Client
}.

(** The values of interface type [Locator] that [New] builds. *)
Inductive Locator : Type :=
| LBase (l : base)
| LYandex (y : yandex).

(** ** New (locator.go, lines 45-67)

    The result is Go's pair [(locator, err)], each component nil or not. *)
Definition New (rt : Runtime) (g : Globals) (serviceUrl apiKey : string)
  : option Locator * option error :=
  if String.eqb serviceUrl Yandex
  then (Some (LYandex (mkYandex apiKey (mkClient (RequestTimeout g)))), None)
  else
    let serviceUrl :=
      if negb (String.eqb apiKey EmptyString)
      then serviceUrl +:+ "?key=" +:+ url_QueryEscape apiKey
      else serviceUrl in
    match url_ParseRequestURI rt serviceUrl with
    | Some err => (None, Some err)
    | None => (Some (LBase (mkBase serviceUrl (mkClient (RequestTimeout g)))), None)
    end.

(** ** Get (locator.go, lines 70-119) *)

(** Lines 71-82: the adjustments of the local copy [req] of the argument.
    The result is the adjusted copy and the saved [ipAddress]. *)
Definition Get_prepare (g : Globals) (req : Request) : M (Request * string) :=
  let req := set_ConsiderIp (negb (IgnoreIPMethod g)) req in
  req ← (if IgnoreIPMethod g
         then p ← new_Fallbacks (mkFallbacks false false);
              mret (set_Fallbacks (Some p) req)
         else mret req);
  let req := if String.eqb (RadioType req) EmptyString
             then set_RadioType "gsm" req else req in
  let ipAddress := IPAddress req in
  let req := set_IPAddress EmptyString req in
  mret (req, ipAddress).

(** Lines 83-118: encoding, the HTTP exchange and the reading of the
    answer. *)
Definition Get_exchange (rt : Runtime) (g : Globals) (l : base)
    (req : Request) (ipAddress : string) : M (Result Response) :=
  data ← marshal rt req;
  match data with
  | Err err => mret (Err err)
  | Ok data =>
  match http_NewRequest rt "POST" (serviceUrl l) data with
  | Err err => mret (Err err)
  | Ok httpReq =>
  let httpReq := Header_Set "User-Agent" (UserAgent g) httpReq in
  let httpReq := Header_Set "Content-Type" "application/json" httpReq in
  let httpReq := if negb (String.eqb ipAddress EmptyString)
                 then Header_Set "X-Forwarded-For" ipAddress httpReq
                 else httpReq in
  resp ← Client_Do rt (client l) httpReq;
  match resp with
  | Err err => mret (Err err)
  | Ok resp =>
  match StatusCode resp with
  | 200 =>
      let response := json_Decode rt (RespBody resp) in
      _ ← Body_Close;
      match response with
      | Err err => mret (Err err)
      | Ok response => mret (Ok response)
      end
  | 400 => mret (Err ErrBadRequest)
  | 403 => mret (Err ErrForbidden)
  | 404 => mret (Err ErrNotFound)
  | _ => err ← errors_New (http_StatusText (StatusCode resp));
         mret (Err err)
  end end end end.

Definition Get (rt : Runtime) (g : Globals) (l : base) (req : Request)
  : M (Result Response) :=
  '(req, ipAddress) ← Get_prepare g req;
  Get_exchange rt g l req ipAddress.

(** ** Reading a trace *)

(** The requests a trace hands to [Client.Do], with the timeout in force. *)
Fixpoint sent (tr : list Event) : list (Duration * HttpRequest) :=
  match tr with
  | [] => []
  | EvDo t r :: tr' => (t, r) :: sent tr'
  | EvClose :: tr' => sent tr'
  end.

(** Whether the response body was closed. *)
Fixpoint closed (tr : list Event) : bool :=
  match tr with
  | [] => false
  | EvClose :: _ => true
  | EvDo _ _ :: tr' => closed tr'
  end.

(** ** Notions used in the statements *)

(** The request lines 87-95 build from the encoded body [data]. *)
Definition built_request (g : Globals) (l : base) (ipAddress data : string)
  : HttpRequest :=
  let httpReq := mkHttpRequest "POST" (serviceUrl l) ∅ data in
  let httpReq := Header_Set "User-Agent" (UserAgent g) httpReq in
  let httpReq := Header_Set "Content-Type" "application/json" httpReq in
  if negb (String.eqb ipAddress EmptyString)
  then Header_Set "X-Forwarded-For" ipAddress httpReq
  else httpReq.

(** The outcome of lines 101-118 for the response [resp]. *)
Definition answer_outcome (rt : Runtime) (resp : HttpResponse) (w : World)
  : Result Response * World * list Event :=
  if StatusCode resp =? 200
  then (json_Decode rt (RespBody resp), w, [EvClose])
  else if StatusCode resp =? 400 then (Err ErrBadRequest, w, [])
  else if StatusCode resp =? 403 then (Err ErrForbidden, w, [])
  else if StatusCode resp =? 404 then (Err ErrNotFound, w, [])
  else (Err (errorString (next_err w) (http_StatusText (StatusCode resp))),
        mkWorld (heap w) (S (next_err w)), []).

(** The radio type after line 78-80. *)
Definition radio_or_default (req : Request) : string :=
  if String.eqb (RadioType req) EmptyString then "gsm" else RadioType req.

(** The URL [New] validates and binds the client to. *)
Definition bound_url (serviceUrl apiKey : string) : string :=
  if negb (String.eqb apiKey EmptyString)
  then serviceUrl +:+ "?key=" +:+ url_QueryEscape apiKey
  else serviceUrl.

(** A pointer is valid in a store when it is nil or points into it. *)
Definition valid_ptr (h : list Fallbacks) (p : FallbacksPtr) : Prop :=
  match p with
  | Some a => (a < List.length h)%nat
  | None => True
  end.

(** Whether the byte [c] occurs in [s]. *)
Fixpoint has_byte (c : ascii) (s : string) : bool :=
  match s with
  | EmptyString => false
  | String d s' => (d =? c)%char || has_byte c s'
  end.

(** ** A runtime for examples

    A stand-in for the libraries and the remote service: every URL that
    reaches the authority stage is accepted, the encoder prints the fields
    [Get] touches, and the service answers every request with [answer]. *)
Definition quote : string := String (ascii_of_N 34) EmptyString.

Definition show_bool (b : bool) : string := if b then "true" else "false".

Definition show_Fallbacks (f : option Fallbacks) : string :=
  match f with
  | None => "null"
  | Some f => "{lacf:" +:+ show_bool (LAC f) +:+ ",ipf:" +:+ show_bool (IP f) +:+ "}"
  end.

Definition stub_Marshal (w : WireRequest) : Result string :=
  Ok ("{radioType:" +:+ quote +:+ wRadioType w +:+ quote
      +:+ ",considerIp:" +:+ show_bool (wConsiderIp w)
      +:+ ",ipAddress:" +:+ quote +:+ wIPAddress w +:+ quote
      +:+ ",fallbacks:" +:+ show_Fallbacks (wFallbacks w) +:+ "}").

Definition stub_Decode (body : string) : Result Response :=
  if String.eqb body EmptyString
  then Err (otherError "EOF")
  else Ok (mkResponse 0 0 0).

Definition stub_runtime (answer : Result HttpResponse) : Runtime :=
  {| strconv_Quote := fun s => quote +:+ s +:+ quote;
     url_parse_rest := fun _ _ => None;
     url_Parse := fun _ => None;
     json_Marshal := stub_Marshal;
     client_Do := fun _ _ => answer;
     json_Decode := stub_Decode |}.

Definition answer_with (code : Z) : Result HttpResponse :=
  Ok (mkHttpResponse code "{}").

Definition sample_request : Request :=
  mkRequest EmptyString
            [mkCellTower 250 1 7800 12345 (-70)]
            [mkWifiAccessPoint "00:11:22:33:44:55" (-60)]
            "192.0.2.7" true (Some 0%nat).

Definition sample_world : World :=
  mkWorld [mkFallbacks true true] (next_err start_world).

Definition sample_base : base :=
  mkBase (Mozilla +:+ "?key=abc123") (mkClient (Second * 30)).

(** The adjusted copy of [sample_request] under the initial globals, and its
    encoding by the stub. *)
Definition sample_prepared : Request :=
  mkRequest "gsm" (CellTowers sample_request) (WifiAccessPoints sample_request)
            EmptyString true (Some 0%nat).

Definition sample_body : string :=
  match stub_Marshal (wire (heap sample_world) sample_prepared) with
  | Ok data => data
  | Err _ => EmptyString
  end.

(** The globals with IP lookup suppressed, and the adjusted copy of
    [sample_request] under them: its pointer is the fresh address 1. *)
Definition suppressing_globals : Globals :=
  mkGlobals (Second * 30) true "GeoTrack/1.0".

Definition sample_suppressed : Request :=
  mkRequest "gsm" (CellTowers sample_request) (WifiAccessPoints sample_request)
            EmptyString false (Some 1%nat).

Definition sample_world_after : World :=
  mkWorld [mkFallbacks true true; mkFallbacks false false] (next_err start_world).

Definition sample_suppressed_body : string :=
  match stub_Marshal (wire (heap sample_world_after) sample_suppressed) with
  | Ok data => data
  | Err _ => EmptyString
  end.

(** A request that names its radio type, its adjusted copy under the initial
    globals and the encoding of that copy. *)
Definition sample_lte_request : Request := set_RadioType "lte" sample_request.

Definition sample_lte_prepared : Request := set_RadioType "lte" sample_prepared.

Definition sample_lte_body : string :=
  match stub_Marshal (wire (heap sample_world) sample_lte_prepared) with
  | Ok data => data
  | Err _ => EmptyString
  end.

(** Globals changed after construction: a one-second timeout, IP lookup
    suppressed and another user agent. *)
Definition later_globals : Globals := mkGlobals Second true "Tracker/2.0".

(** Whether every byte of [s] is one that [QueryEscape] keeps as it is. *)
Fixpoint unreserved_only (s : string) : bool :=
  match s with
  | EmptyString => true
  | String c s' => negb (shouldEscape c) && unreserved_only s'
  end.

(** A status the switch of [Get] has no case for. *)
Definition unexpected_status (code : Z) : bool :=
  negb ((code =? 200) || (code =? 400) || (code =? 403) || (code =? 404)).

(** Runtimes for the failure paths: an encoder that fails, a [url.Parse]
    that fails, and a transport that fails. *)
Definition runtime_without_encoder : Runtime :=
  {| strconv_Quote := fun s => quote +:+ s +:+ quote;
     url_parse_rest := fun _ _ => None;
     url_Parse := fun _ => None;
     json_Marshal := fun _ => Err (otherError "json: unsupported value");
     client_Do := fun _ _ => answer_with 200;
     json_Decode := stub_Decode |}.

Definition runtime_without_url_Parse : Runtime :=
  {| strconv_Quote := fun s => quote +:+ s +:+ quote;
     url_parse_rest := fun _ _ => None;
     url_Parse := fun _ => Some (otherError "parse: invalid URL escape");
     json_Marshal := stub_Marshal;
     client_Do := fun _ _ => answer_with 200;
     json_Decode := stub_Decode |}.

Definition unreachable : Result HttpResponse :=
  Err (otherError "dial tcp: connection refused").

(** A service whose answer cannot be decoded. *)
Definition answer_with_empty_body : Result HttpResponse :=
  Ok (mkHttpResponse 200 EmptyString).

(** * Properties *)

(** ** The status switch *)

(** The [switch] on the status code, as a chain of comparisons. *)
Lemma switch_status {A : Type} (code : Z) (a200 a400 a403 a404 other : A) :
  match code with
  | 200 => a200
  | 400 => a400
  | 403 => a403
  | 404 => a404
  | _ => other
  end =
  if code =? 200 then a200
  else if code =? 400 then a400
  else if code =? 403 then a403
  else if code =? 404 then a404
  else other.
Proof.
  destruct code as [|p|p]; try reflexivity.
  do 9 (try (destruct p as [p|p|]; try reflexivity)).
Qed.

(** ** What [Get] does, step by step *)

Lemma Get_exchange_run rt g l req ipAddress w :
  Get_exchange rt g l req ipAddress w =
  match json_Marshal rt (wire (heap w) req) with
  | Err err => (Err err, w, [])
  | Ok data =>
      match url_Parse rt (serviceUrl l) with
      | Some err => (Err err, w, [])
      | None =>
          let httpReq := built_request g l ipAddress data in
          match client_Do rt (Timeout (client l)) httpReq with
          | Err err => (Err err, w, [EvDo (Timeout (client l)) httpReq])
          | Ok resp =>
              let '(r, w', tr) := answer_outcome rt resp w in
              (r, w', EvDo (Timeout (client l)) httpReq :: tr)
          end
      end
  end.
Proof.
  unfold Get_exchange, marshal, http_NewRequest, Client_Do, answer_outcome.
  unfold mbind, M_bind, mret, M_ret; cbn beta iota.
  destruct (json_Marshal rt (wire (heap w) req)) as [data|err]; [|reflexivity].
  destruct (url_Parse rt (serviceUrl l)) as [err|]; [reflexivity|].
  fold (built_request g l ipAddress data). cbn zeta.
  destruct (client_Do rt (Timeout (client l)) (built_request g l ipAddress data))
    as [resp|err]; [|reflexivity].
  rewrite switch_status.
  destruct (StatusCode resp =? 200).
  { unfold Body_Close. destruct (json_Decode rt (RespBody resp)); reflexivity. }
  destruct (StatusCode resp =? 400); [reflexivity|].
  destruct (StatusCode resp =? 403); [reflexivity|].
  destruct (StatusCode resp =? 404); reflexivity.
Qed.

Lemma answer_outcome_trace rt resp w :
  trace_of (answer_outcome rt resp w) =
  if StatusCode resp =? 200 then [EvClose] else [].
Proof.
  unfold answer_outcome.
  repeat (destruct (StatusCode resp =? _); [reflexivity|]); reflexivity.
Qed.

Lemma Get_prepare_run g req w :
  Get_prepare g req w =
  if IgnoreIPMethod g
  then (mkRequest (radio_or_default req) (CellTowers req) (WifiAccessPoints req)
                  EmptyString false (Some (List.length (heap w))),
        IPAddress req,
        mkWorld (heap w ++ [mkFallbacks false false])%list (next_err w), [])
  else (mkRequest (radio_or_default req) (CellTowers req) (WifiAccessPoints req)
                  EmptyString true (ReqFallbacks req),
        IPAddress req, w, []).
Proof.
  unfold Get_prepare, radio_or_default, new_Fallbacks.
  unfold mbind, M_bind, mret, M_ret.
  destruct (IgnoreIPMethod g); cbn;
    destruct (String.eqb (RadioType req) EmptyString); reflexivity.
Qed.

Lemma Get_run rt g l req w req' ipAddress w' tr0 :
  Get_prepare g req w = (req', ipAddress, w', tr0) ->
  Get rt g l req w = Get_exchange rt g l req' ipAddress w'.
Proof.
  intros Hp. unfold Get, mbind, M_bind. rewrite Hp.
  assert (tr0 = []) as ->.
  { rewrite Get_prepare_run in Hp. destruct (IgnoreIPMethod g); congruence. }
  destruct (Get_exchange rt g l req' ipAddress w') as [[r w2] tr]. reflexivity.
Qed.

(** The trace of a call holds at most one request, and this is how it was
    built. *)
Lemma Get_sent_inv rt g l req w req' ipAddress w' tr0 t hr :
  Get_prepare g req w = (req', ipAddress, w', tr0) ->
  (t, hr) ∈ sent (trace_of (Get rt g l req w)) ->
  t = Timeout (client l) /\
  url_Parse rt (serviceUrl l) = None /\
  exists data,
    json_Marshal rt (wire (heap w') req') = Ok data /\
    hr = built_request g l ipAddress data.
Proof.
  intros Hp Hin. rewrite (Get_run _ _ _ _ _ _ _ _ _ Hp) in Hin.
  rewrite Get_exchange_run in Hin.
  destruct (json_Marshal rt (wire (heap w') req')) as [data|err];
    [|cbn in Hin; by apply elem_of_nil in Hin].
  destruct (url_Parse rt (serviceUrl l)) as [err|];
    [cbn in Hin; by apply elem_of_nil in Hin|].
  cbn zeta in Hin.
  assert ((t, hr) = (Timeout (client l), built_request g l ipAddress data)) as Heq.
  { destruct (client_Do rt (Timeout (client l)) (built_request g l ipAddress data))
      as [resp|err].
    - pose proof (answer_outcome_trace rt resp w') as Htr.
      destruct (answer_outcome rt resp w') as [[r w2] tr]. cbn in Htr, Hin.
      subst tr. destruct (StatusCode resp =? 200); cbn in Hin;
        by apply list_elem_of_singleton in Hin.
    - cbn in Hin. by apply list_elem_of_singleton in Hin. }
  injection Heq as -> ->. eauto.
Qed.

(** Conversely, once the body is encoded and the URL parsed, the request
    goes out. *)
Lemma Get_sends rt g l req w req' ipAddress w' tr0 data :
  Get_prepare g req w = (req', ipAddress, w', tr0) ->
  json_Marshal rt (wire (heap w') req') = Ok data ->
  url_Parse rt (serviceUrl l) = None ->
  sent (trace_of (Get rt g l req w)) =
  [(Timeout (client l), built_request g l ipAddress data)].
Proof.
  intros Hp Hm Hu. rewrite (Get_run _ _ _ _ _ _ _ _ _ Hp), Get_exchange_run, Hm, Hu.
  cbn zeta.
  destruct (client_Do rt (Timeout (client l)) (built_request g l ipAddress data))
    as [resp|err]; [|reflexivity].
  pose proof (answer_outcome_trace rt resp w') as Htr.
  destruct (answer_outcome rt resp w') as [[r w2] tr]. cbn in Htr |- *.
  subst tr. destruct (StatusCode resp =? 200); reflexivity.
Qed.

(** ** The request on the wire *)

Lemma built_request_Body g l ipAddress data :
  Body (built_request g l ipAddress data) = data.
Proof. unfold built_request. by destruct (negb _). Qed.

Lemma built_request_URL g l ipAddress data :
  URL (built_request g l ipAddress data) = serviceUrl l.
Proof. unfold built_request. by destruct (negb _). Qed.

Lemma built_request_Method g l ipAddress data :
  Method (built_request g l ipAddress data) = "POST".
Proof. unfold built_request. by destruct (negb _). Qed.

Lemma built_request_forwarded g l ipAddress data :
  ipAddress <> EmptyString ->
  Header (built_request g l ipAddress data) !! "X-Forwarded-For" = Some [ipAddress].
Proof.
  intros Hne. unfold built_request.
  destruct (String.eqb_spec ipAddress EmptyString) as [He|_]; [done|].
  cbn. apply lookup_insert_eq.
Qed.

Lemma built_request_not_forwarded g l data :
  Header (built_request g l EmptyString data) !! "X-Forwarded-For" = None.
Proof.
  unfold built_request. cbn.
  rewrite !lookup_insert_ne by done. apply lookup_empty.
Qed.

Lemma built_request_User_Agent g l ipAddress data :
  Header (built_request g l ipAddress data) !! "User-Agent" = Some [UserAgent g].
Proof.
  unfold built_request. destruct (negb _); cbn.
  - rewrite !lookup_insert_ne by done. apply lookup_insert_eq.
  - rewrite lookup_insert_ne by done. apply lookup_insert_eq.
Qed.

Lemma built_request_Content_Type g l ipAddress data :
  Header (built_request g l ipAddress data) !! "Content-Type" = Some ["application/json"].
Proof.
  unfold built_request. destruct (negb _); cbn.
  - rewrite lookup_insert_ne by done. apply lookup_insert_eq.
  - apply lookup_insert_eq.
Qed.

(** The adjusted copy does not depend on the IP address of the argument,
    which only comes back as the saved [ipAddress]. *)
Lemma Get_prepare_set_IPAddress g req w ip :
  Get_prepare g (set_IPAddress ip req) w =
  let '(req', _, w', tr) := Get_prepare g req w in (req', ip, w', tr).
Proof. rewrite !Get_prepare_run. by destruct (IgnoreIPMethod g). Qed.

Lemma Get_prepare_ipAddress g req w req' ipAddress w' tr0 :
  Get_prepare g req w = (req', ipAddress, w', tr0) ->
  ipAddress = IPAddress req /\ IPAddress req' = EmptyString.
Proof.
  rewrite Get_prepare_run. destruct (IgnoreIPMethod g); intros [= <- <- <- <-]; done.
Qed.

(** C1. Whenever [Get] hands a request to the transport, its body is the
    encoding of the adjusted copy of the argument, whose [IPAddress] field is
    empty; the body is the same whatever IP address the argument carries;
    with a non-empty [IPAddress] the header [X-Forwarded-For] holds exactly
    that address, and with an empty one the header is absent. *)
Theorem ip_address_travels_in_header_only
    rt g l req w req' ipAddress w' tr0 t hr :
  Get_prepare g req w = (req', ipAddress, w', tr0) ->
  (t, hr) ∈ sent (trace_of (Get rt g l req w)) ->
  json_Marshal rt (wire (heap w') req') = Ok (Body hr) /\
  wIPAddress (wire (heap w') req') = EmptyString /\
  (forall ip, exists hr2,
      sent (trace_of (Get rt g l (set_IPAddress ip req) w)) = [(t, hr2)] /\
      Body hr2 = Body hr) /\
  (IPAddress req <> EmptyString ->
   Header hr !! "X-Forwarded-For" = Some [IPAddress req]) /\
  (IPAddress req = EmptyString ->
   Header hr !! "X-Forwarded-For" = None).
Proof.
  intros Hp Hin.
  destruct (Get_sent_inv _ _ _ _ _ _ _ _ _ _ _ Hp Hin)
    as (-> & Hurl & data & Hm & ->).
  destruct (Get_prepare_ipAddress _ _ _ _ _ _ _ Hp) as [-> Hip].
  rewrite built_request_Body. repeat split.
  - exact Hm.
  - exact Hip.
  - intros ip. exists (built_request g l ip data).
    rewrite built_request_Body. split; [|reflexivity].
    apply (Get_sends rt g l _ w req' ip w' tr0); [|exact Hm|exact Hurl].
    rewrite Get_prepare_set_IPAddress, Hp. reflexivity.
  - apply built_request_forwarded.
  - intros ->. apply built_request_not_forwarded.
Qed.

Lemma ip_address_travels_in_header_only_witness :
  let rt := stub_runtime (answer_with 200) in
  let hr := built_request initial_globals sample_base "192.0.2.7" sample_body in
  (Second * 30, hr) ∈
    sent (trace_of (Get rt initial_globals sample_base sample_request sample_world)) /\
  json_Marshal rt (wire (heap sample_world) sample_prepared) = Ok (Body hr) /\
  Header hr !! "X-Forwarded-For" = Some ["192.0.2.7"].
Proof.
  intros rt hr.
  assert ((Second * 30, hr) ∈
    sent (trace_of (Get rt initial_globals sample_base sample_request sample_world)))
    as Hin by (apply list_elem_of_singleton; vm_compute; reflexivity).
  destruct (ip_address_travels_in_header_only rt initial_globals sample_base
              sample_request sample_world sample_prepared "192.0.2.7"
              sample_world [] (Second * 30) hr eq_refl Hin)
    as (Hbody & _ & _ & Hfwd & _).
  split; [exact Hin|]. split; [exact Hbody|]. apply Hfwd. discriminate.
Defined.

(** ** The adjusted copy *)

(** What the encoder reads of the adjusted copy, in terms of the argument
    and of the store before the call. *)
Lemma Get_prepare_wire g req w req' ipAddress w' tr0 :
  Get_prepare g req w = (req', ipAddress, w', tr0) ->
  wire (heap w') req' =
  mkWireRequest (radio_or_default req) (CellTowers req) (WifiAccessPoints req)
                EmptyString (negb (IgnoreIPMethod g))
                (if IgnoreIPMethod g then Some (mkFallbacks false false)
                 else deref (heap w) (ReqFallbacks req)).
Proof.
  rewrite Get_prepare_run.
  destruct (IgnoreIPMethod g); intros [= <- <- <- <-]; unfold wire; cbn; [|done].
  by rewrite list_lookup_middle.
Qed.

Lemma Get_sent_Body rt g l req w req' ipAddress w' tr0 t hr :
  Get_prepare g req w = (req', ipAddress, w', tr0) ->
  (t, hr) ∈ sent (trace_of (Get rt g l req w)) ->
  json_Marshal rt (wire (heap w') req') = Ok (Body hr).
Proof.
  intros Hp Hin.
  destruct (Get_sent_inv _ _ _ _ _ _ _ _ _ _ _ Hp Hin) as (_ & _ & data & Hm & ->).
  by rewrite built_request_Body.
Qed.

(** C4. The body [Get] sends is the encoding of the adjusted copy, whose
    [ConsiderIp] is the negation of [IgnoreIPMethod]; when [IgnoreIPMethod]
    is set, the fallbacks the encoder reads are both false, whatever
    [Fallbacks] the argument points to. *)
Theorem suppression_overrides_consider_ip_and_fallbacks
    rt g l req w req' ipAddress w' tr0 t hr :
  Get_prepare g req w = (req', ipAddress, w', tr0) ->
  (t, hr) ∈ sent (trace_of (Get rt g l req w)) ->
  json_Marshal rt (wire (heap w') req') = Ok (Body hr) /\
  wConsiderIp (wire (heap w') req') = negb (IgnoreIPMethod g) /\
  (IgnoreIPMethod g = true ->
   wFallbacks (wire (heap w') req') = Some (mkFallbacks false false)).
Proof.
  intros Hp Hin. split; [by eapply Get_sent_Body|].
  rewrite (Get_prepare_wire _ _ _ _ _ _ _ Hp). cbn.
  split; [reflexivity|]. by intros ->.
Qed.

Lemma suppression_overrides_consider_ip_and_fallbacks_witness :
  let rt := stub_runtime (answer_with 200) in
  let hr := built_request suppressing_globals sample_base "192.0.2.7"
              sample_suppressed_body in
  deref (heap sample_world) (ReqFallbacks sample_request) = Some (mkFallbacks true true) /\
  (Second * 30, hr) ∈
    sent (trace_of (Get rt suppressing_globals sample_base sample_request sample_world)) /\
  wConsiderIp (wire (heap sample_world_after) sample_suppressed) = false /\
  wFallbacks (wire (heap sample_world_after) sample_suppressed)
  = Some (mkFallbacks false false).
Proof.
  intros rt hr.
  assert ((Second * 30, hr) ∈
    sent (trace_of (Get rt suppressing_globals sample_base sample_request sample_world)))
    as Hin by (apply list_elem_of_singleton; vm_compute; reflexivity).
  destruct (suppression_overrides_consider_ip_and_fallbacks rt suppressing_globals
              sample_base sample_request sample_world sample_suppressed "192.0.2.7"
              sample_world_after [] (Second * 30) hr eq_refl Hin)
    as (_ & Hc & Hf).
  split; [reflexivity|]. split; [exact Hin|]. split; [exact Hc|].
  apply Hf. reflexivity.
Defined.

(** C9. The body [Get] sends is the encoding of the adjusted copy, whose
    radio type is ["gsm"] when the argument has none and the argument's own
    radio type otherwise. *)
Theorem radio_type_defaults_to_gsm
    rt g l req w req' ipAddress w' tr0 t hr :
  Get_prepare g req w = (req', ipAddress, w', tr0) ->
  (t, hr) ∈ sent (trace_of (Get rt g l req w)) ->
  json_Marshal rt (wire (heap w') req') = Ok (Body hr) /\
  (RadioType req = EmptyString -> wRadioType (wire (heap w') req') = "gsm") /\
  (RadioType req <> EmptyString ->
   wRadioType (wire (heap w') req') = RadioType req).
Proof.
  intros Hp Hin. split; [by eapply Get_sent_Body|].
  rewrite (Get_prepare_wire _ _ _ _ _ _ _ Hp). cbn. unfold radio_or_default.
  split.
  - by intros ->.
  - intros Hne. by destruct (String.eqb_spec (RadioType req) EmptyString).
Qed.

Lemma radio_type_defaults_to_gsm_witness :
  let rt := stub_runtime (answer_with 200) in
  let hr := built_request initial_globals sample_base "192.0.2.7" sample_body in
  let hr2 := built_request initial_globals sample_base "192.0.2.7" sample_lte_body in
  (RadioType sample_request = EmptyString /\
   (Second * 30, hr) ∈
     sent (trace_of (Get rt initial_globals sample_base sample_request sample_world)) /\
   json_Marshal rt (wire (heap sample_world) sample_prepared) = Ok (Body hr) /\
   wRadioType (wire (heap sample_world) sample_prepared) = "gsm") /\
  (RadioType sample_lte_request = "lte" /\
   (Second * 30, hr2) ∈
     sent (trace_of (Get rt initial_globals sample_base sample_lte_request
                         sample_world)) /\
   json_Marshal rt (wire (heap sample_world) sample_lte_prepared) = Ok (Body hr2) /\
   wRadioType (wire (heap sample_world) sample_lte_prepared) = "lte").
Proof.
  intros rt hr hr2.
  assert ((Second * 30, hr) ∈
    sent (trace_of (Get rt initial_globals sample_base sample_request sample_world)))
    as Hin by (apply list_elem_of_singleton; vm_compute; reflexivity).
  assert ((Second * 30, hr2) ∈
    sent (trace_of (Get rt initial_globals sample_base sample_lte_request
                        sample_world)))
    as Hin2 by (apply list_elem_of_singleton; vm_compute; reflexivity).
  destruct (radio_type_defaults_to_gsm rt initial_globals sample_base
              sample_request sample_world sample_prepared "192.0.2.7"
              sample_world [] (Second * 30) hr eq_refl Hin)
    as (Hbody & Hgsm & _).
  destruct (radio_type_defaults_to_gsm rt initial_globals sample_base
              sample_lte_request sample_world sample_lte_prepared "192.0.2.7"
              sample_world [] (Second * 30) hr2 eq_refl Hin2)
    as (Hbody2 & _ & Hkeep).
  split.
  - split; [reflexivity|]. split; [exact Hin|]. split; [exact Hbody|].
    apply Hgsm. reflexivity.
  - split; [reflexivity|]. split; [exact Hin2|]. split; [exact Hbody2|].
    apply Hkeep. discriminate.
Defined.

(** ** Construction *)

Lemma New_run rt g serviceUrl apiKey :
  New rt g serviceUrl apiKey =
  if String.eqb serviceUrl Yandex
  then (Some (LYandex (mkYandex apiKey (mkClient (RequestTimeout g)))), None)
  else match url_ParseRequestURI rt (bound_url serviceUrl apiKey) with
       | Some err => (None, Some err)
       | None => (Some (LBase (mkBase (bound_url serviceUrl apiKey)
                                      (mkClient (RequestTimeout g)))), None)
       end.
Proof. reflexivity. Qed.

Lemma New_base_inv rt g serviceUrl apiKey l err :
  New rt g serviceUrl apiKey = (Some (LBase l), err) ->
  serviceUrl <> Yandex /\
  url_ParseRequestURI rt (bound_url serviceUrl apiKey) = None /\
  l = mkBase (bound_url serviceUrl apiKey) (mkClient (RequestTimeout g)) /\
  err = None.
Proof.
  rewrite New_run.
  destruct (String.eqb_spec serviceUrl Yandex) as [->|Hne]; [discriminate|].
  destruct (url_ParseRequestURI rt (bound_url serviceUrl apiKey)); [discriminate|].
  intros [= <- <-]. done.
Qed.

(** ** The process-wide variables *)

(** C3, as the code has it. For a client built by [New] under the globals
    [g0] and a [Get] made later under the globals [g]: the request goes out
    with the timeout [New] read from [g0], whatever [RequestTimeout] is in
    [g]; the [User-Agent] header and the suppression of IP lookup
    ([ConsiderIp] and the overriding of the fallbacks) follow [g], the
    values at the time of the call. *)
Theorem timeout_read_by_New_others_by_Get
    rt g0 g serviceUrl0 apiKey l req w req' ipAddress w' tr0 t hr :
  New rt g0 serviceUrl0 apiKey = (Some (LBase l), None) ->
  Get_prepare g req w = (req', ipAddress, w', tr0) ->
  (t, hr) ∈ sent (trace_of (Get rt g l req w)) ->
  t = RequestTimeout g0 /\
  Header hr !! "User-Agent" = Some [UserAgent g] /\
  json_Marshal rt (wire (heap w') req') = Ok (Body hr) /\
  wConsiderIp (wire (heap w') req') = negb (IgnoreIPMethod g) /\
  wFallbacks (wire (heap w') req') =
    (if IgnoreIPMethod g then Some (mkFallbacks false false)
     else deref (heap w) (ReqFallbacks req)).
Proof.
  intros Hnew Hp Hin.
  apply New_base_inv in Hnew as (_ & _ & -> & _).
  pose proof (Get_sent_Body _ _ _ _ _ _ _ _ _ _ _ Hp Hin) as Hbody.
  destruct (Get_sent_inv _ _ _ _ _ _ _ _ _ _ _ Hp Hin) as (-> & _ & data & _ & ->).
  rewrite (Get_prepare_wire _ _ _ _ _ _ _ Hp) in *.
  split; [reflexivity|]. split; [apply built_request_User_Agent|]. done.
Qed.

Lemma timeout_read_by_New_others_by_Get_witness :
  let rt := stub_runtime (answer_with 200) in
  let hr := built_request later_globals sample_base "192.0.2.7" sample_suppressed_body in
  New rt initial_globals Mozilla "abc123" = (Some (LBase sample_base), None) /\
  (Second * 30, hr) ∈
    sent (trace_of (Get rt later_globals sample_base sample_request sample_world)) /\
  Second * 30 = RequestTimeout initial_globals /\
  Header hr !! "User-Agent" = Some ["Tracker/2.0"] /\
  wConsiderIp (wire (heap sample_world_after) sample_suppressed) = false.
Proof.
  intros rt hr.
  assert (New rt initial_globals Mozilla "abc123" = (Some (LBase sample_base), None))
    as Hnew by reflexivity.
  assert ((Second * 30, hr) ∈
    sent (trace_of (Get rt later_globals sample_base sample_request sample_world)))
    as Hin by (apply list_elem_of_singleton; vm_compute; reflexivity).
  destruct (timeout_read_by_New_others_by_Get rt initial_globals later_globals
              Mozilla "abc123" sample_base sample_request sample_world
              sample_suppressed "192.0.2.7" sample_world_after []
              (Second * 30) hr Hnew eq_refl Hin)
    as (Ht & Hua & _ & Hc & _).
  repeat split; assumption.
Defined.

(** C3, as the claim has it, fails for the timeout: the client built under
    the initial thirty seconds still sends with thirty seconds after
    [RequestTimeout] has been set to one second. *)
Lemma timeout_read_at_call_counterexample :
  let rt := stub_runtime (answer_with 200) in
  let hr := built_request later_globals sample_base "192.0.2.7" sample_suppressed_body in
  New rt initial_globals Mozilla "abc123" = (Some (LBase sample_base), None) /\
  sent (trace_of (Get rt later_globals sample_base sample_request sample_world))
  = [(30000000000, hr)] /\
  RequestTimeout later_globals = 1000000000 /\
  ~ (forall t r,
       (t, r) ∈ sent (trace_of (Get rt later_globals sample_base
                                    sample_request sample_world)) ->
       t = RequestTimeout later_globals).
Proof.
  intros rt hr.
  assert (sent (trace_of (Get rt later_globals sample_base sample_request sample_world))
          = [(30000000000, hr)]) as Hs by (vm_compute; reflexivity).
  split; [reflexivity|]. split; [exact Hs|]. split; [reflexivity|].
  intros Hall. specialize (Hall 30000000000 hr). rewrite Hs in Hall.
  specialize (Hall (list_elem_of_here _ _)). discriminate Hall.
Qed.

(** ** The answer *)

(** The whole outcome of a call whose request was answered by [resp]. *)
Lemma Get_answered rt g l req w req' ipAddress w' tr0 t hr resp :
  Get_prepare g req w = (req', ipAddress, w', tr0) ->
  (t, hr) ∈ sent (trace_of (Get rt g l req w)) ->
  client_Do rt t hr = Ok resp ->
  Get rt g l req w =
  let '(r, w2, tr) := answer_outcome rt resp w' in (r, w2, EvDo t hr :: tr).
Proof.
  intros Hp Hin Hdo.
  destruct (Get_sent_inv _ _ _ _ _ _ _ _ _ _ _ Hp Hin) as (-> & Hurl & data & Hm & ->).
  rewrite (Get_run _ _ _ _ _ _ _ _ _ Hp), Get_exchange_run, Hm, Hurl.
  cbn zeta. by rewrite Hdo.
Qed.

Lemma Get_prepare_next_err g req w req' ipAddress w' tr0 :
  Get_prepare g req w = (req', ipAddress, w', tr0) ->
  next_err w' = next_err w.
Proof.
  rewrite Get_prepare_run. by destruct (IgnoreIPMethod g); intros [= <- <- <- <-].
Qed.

Lemma Get_prepare_total g req w :
  exists req' ipAddress w', Get_prepare g req w = (req', ipAddress, w', []).
Proof. rewrite Get_prepare_run. destruct (IgnoreIPMethod g); eauto. Qed.

(** C5. When the service answers a [Get], status 400 gives [ErrBadRequest],
    403 [ErrForbidden] and 404 [ErrNotFound]; the three are separate
    [errors.New] values, at three different addresses; any status other than
    200 and these three gives a fresh [errors.New] value whose text is
    [http.StatusText] of the status, which for 418 is the teapot phrase. *)
Theorem status_decides_the_error rt g l req w t hr resp :
  (t, hr) ∈ sent (trace_of (Get rt g l req w)) ->
  client_Do rt t hr = Ok resp ->
  (StatusCode resp = 400 -> result_of (Get rt g l req w) = Err ErrBadRequest) /\
  (StatusCode resp = 403 -> result_of (Get rt g l req w) = Err ErrForbidden) /\
  (StatusCode resp = 404 -> result_of (Get rt g l req w) = Err ErrNotFound) /\
  (StatusCode resp <> 200 -> StatusCode resp <> 400 ->
   StatusCode resp <> 403 -> StatusCode resp <> 404 ->
   exists err,
     result_of (Get rt g l req w) = Err err /\
     addr_of err = Some (next_err w) /\
     Error err = http_StatusText (StatusCode resp)) /\
  (ErrBadRequest <> ErrForbidden /\ ErrBadRequest <> ErrNotFound /\
   ErrForbidden <> ErrNotFound) /\
  (addr_of ErrBadRequest = Some 0%nat /\ addr_of ErrForbidden = Some 1%nat /\
   addr_of ErrNotFound = Some 2%nat) /\
  http_StatusText 418 = "I'm a teapot".
Proof.
  intros Hin Hdo.
  destruct (Get_prepare_total g req w) as (req' & ip & w' & Hp).
  rewrite (Get_answered _ _ _ _ _ _ _ _ _ _ _ _ Hp Hin Hdo).
  rewrite <- (Get_prepare_next_err _ _ _ _ _ _ _ Hp).
  unfold answer_outcome.
  repeat split; try discriminate.
  - by intros ->.
  - by intros ->.
  - by intros ->.
  - intros H200 H400 H403 H404.
    apply Z.eqb_neq in H200, H400, H403, H404.
    rewrite H200, H400, H403, H404. eauto.
Qed.

Lemma status_decides_the_error_witness :
  let rt := stub_runtime (answer_with 418) in
  let hr := built_request initial_globals sample_base "192.0.2.7" sample_body in
  (Second * 30, hr) ∈
    sent (trace_of (Get rt initial_globals sample_base sample_request sample_world)) /\
  client_Do rt (Second * 30) hr = Ok (mkHttpResponse 418 "{}") /\
  exists err,
    result_of (Get rt initial_globals sample_base sample_request sample_world)
    = Err err /\
    addr_of err = Some 3%nat /\
    Error err = "I'm a teapot".
Proof.
  intros rt hr.
  assert ((Second * 30, hr) ∈
    sent (trace_of (Get rt initial_globals sample_base sample_request sample_world)))
    as Hin by (apply list_elem_of_singleton; vm_compute; reflexivity).
  destruct (status_decides_the_error rt initial_globals sample_base sample_request
              sample_world (Second * 30) hr (mkHttpResponse 418 "{}") Hin eq_refl)
    as (_ & _ & _ & Hother & _).
  split; [exact Hin|]. split; [reflexivity|].
  apply Hother; discriminate.
Defined.

(** On status 200 the call returns what the decoder makes of the body. *)
Lemma Get_decodes_on_200 rt g l req w t hr resp :
  (t, hr) ∈ sent (trace_of (Get rt g l req w)) ->
  client_Do rt t hr = Ok resp ->
  StatusCode resp = 200 ->
  result_of (Get rt g l req w) = json_Decode rt (RespBody resp).
Proof.
  intros Hin Hdo H200.
  destruct (Get_prepare_total g req w) as (req' & ip & w' & Hp).
  rewrite (Get_answered _ _ _ _ _ _ _ _ _ _ _ _ Hp Hin Hdo).
  unfold answer_outcome. by rewrite H200.
Qed.

(** ** Closing the response body *)

(** The body of an answered call is closed exactly when the status is 200,
    whether or not the decoding succeeds. *)
Lemma body_closed_iff_status_200 rt g l req w t hr resp :
  (t, hr) ∈ sent (trace_of (Get rt g l req w)) ->
  client_Do rt t hr = Ok resp ->
  closed (trace_of (Get rt g l req w)) = (StatusCode resp =? 200).
Proof.
  intros Hin Hdo.
  destruct (Get_prepare_total g req w) as (req' & ip & w' & Hp).
  rewrite (Get_answered _ _ _ _ _ _ _ _ _ _ _ _ Hp Hin Hdo).
  pose proof (answer_outcome_trace rt resp w') as Htr.
  destruct (answer_outcome rt resp w') as [[r w2] tr]. cbn in Htr |- *.
  subst tr. by destruct (StatusCode resp =? 200).
Qed.

(** C2 fails on the code. A service that answers 400: the request goes
    out, the call returns [ErrBadRequest], and the trace of the call holds
    no closing of the response body; the same call answered with 200 does
    close it. *)
Theorem body_left_open_on_status_400 :
  let hr := built_request initial_globals sample_base "192.0.2.7" sample_body in
  let run400 := Get (stub_runtime (answer_with 400)) initial_globals sample_base
                    sample_request sample_world in
  let run200 := Get (stub_runtime (answer_with 200)) initial_globals sample_base
                    sample_request sample_world in
  trace_of run400 = [EvDo (Second * 30) hr] /\
  result_of run400 = Err ErrBadRequest /\
  closed (trace_of run400) = false /\
  trace_of run200 = [EvDo (Second * 30) hr; EvClose] /\
  closed (trace_of run200) = true.
Proof. vm_compute. repeat split; reflexivity. Qed.

(** ** New *)

(** C6. For every key, [New] on the [Yandex] URL returns the Yandex locator
    holding the key as it was given, with no error; the result is never a
    [base] client, the only locator that carries a URL, and does not depend
    on the URL functions of the runtime. *)
Theorem New_Yandex_keeps_the_key rt g apiKey :
  New rt g Yandex apiKey =
    (Some (LYandex (mkYandex apiKey (mkClient (RequestTimeout g)))), None) /\
  (forall l err, New rt g Yandex apiKey <> (Some (LBase l), err)) /\
  (forall rt2, New rt2 g Yandex apiKey = New rt g Yandex apiKey).
Proof. repeat split; intros; discriminate. Qed.

(** C8. For an endpoint other than [Yandex], [New] submits the endpoint,
    with the key appended when there is one, to [url.ParseRequestURI]: when
    the parser rejects it, [New] returns a nil locator and the parser's
    error; when it accepts, a [base] client bound to that URL and a nil
    error.  The text [not a url] is rejected whatever the rest of the
    parser does. *)
Theorem New_validates_the_url rt g serviceUrl0 apiKey :
  serviceUrl0 <> Yandex ->
  (forall err,
     url_ParseRequestURI rt (bound_url serviceUrl0 apiKey) = Some err ->
     New rt g serviceUrl0 apiKey = (None, Some err)) /\
  (url_ParseRequestURI rt (bound_url serviceUrl0 apiKey) = None ->
   New rt g serviceUrl0 apiKey =
     (Some (LBase (mkBase (bound_url serviceUrl0 apiKey)
                          (mkClient (RequestTimeout g)))), None)) /\
  New rt g "not a url" EmptyString =
    (None, Some (url_Error rt "parse" "not a url"
                   (otherError "invalid URI for request"))).
Proof.
  intros Hne. rewrite New_run.
  destruct (String.eqb_spec serviceUrl0 Yandex) as [He|_]; [done|].
  repeat split.
  - by intros err ->.
  - by intros ->.
Qed.

Lemma New_validates_the_url_witness :
  let rt := stub_runtime (answer_with 200) in
  "not a url" <> Yandex /\
  url_ParseRequestURI rt (bound_url "not a url" EmptyString)
  = Some (url_Error rt "parse" "not a url" (otherError "invalid URI for request")) /\
  New rt initial_globals "not a url" EmptyString
  = (None, Some (url_Error rt "parse" "not a url"
                   (otherError "invalid URI for request"))).
Proof.
  intros rt.
  assert ("not a url" <> Yandex) as Hne by discriminate.
  destruct (New_validates_the_url rt initial_globals "not a url" EmptyString Hne)
    as (Hrej & _ & _).
  split; [exact Hne|]. split; [reflexivity|]. apply Hrej. reflexivity.
Defined.

(** ** The caller's data *)

Lemma answer_outcome_heap rt resp w :
  heap (world_of (answer_outcome rt resp w)) = heap w.
Proof.
  unfold answer_outcome.
  repeat (destruct (StatusCode resp =? _); [reflexivity|]); reflexivity.
Qed.

Lemma Get_exchange_heap rt g l req ipAddress w :
  heap (world_of (Get_exchange rt g l req ipAddress w)) = heap w.
Proof.
  rewrite Get_exchange_run.
  destruct (json_Marshal rt (wire (heap w) req)); [|reflexivity].
  destruct (url_Parse rt (serviceUrl l)); [reflexivity|]. cbn zeta.
  destruct (client_Do rt _ _) as [resp|]; [|reflexivity].
  pose proof (answer_outcome_heap rt resp w) as Hh.
  by destruct (answer_outcome rt resp w) as [[r w2] tr].
Qed.

(** The store after a call: the store before it, with one fresh object
    behind it when IP lookup is suppressed. *)
Lemma Get_heap rt g l req w :
  heap (world_of (Get rt g l req w)) =
  if IgnoreIPMethod g then (heap w ++ [mkFallbacks false false])%list else heap w.
Proof.
  destruct (Get_prepare_total g req w) as (req' & ip & w' & Hp).
  rewrite (Get_run _ _ _ _ _ _ _ _ _ Hp), Get_exchange_heap.
  rewrite Get_prepare_run in Hp.
  by destruct (IgnoreIPMethod g); injection Hp as _ _ <-.
Qed.

(** C10. [Get] works on its own copy of the request: the fields it sets
    are those of the adjusted copy, and the store after the call is the
    store before it, possibly extended by fresh objects.  So every
    [Fallbacks] object that existed before the call is unchanged, the one
    the caller's request points to included, and the caller's request reads
    the same after the call as before; the pointer of the adjusted copy is
    the caller's or a fresh address, never an address that was written. *)
Theorem Get_leaves_the_callers_request_alone rt g l req w :
  valid_ptr (heap w) (ReqFallbacks req) ->
  let w2 := world_of (Get rt g l req w) in
  heap w `prefix_of` heap w2 /\
  (forall a f, heap w !! a = Some f -> heap w2 !! a = Some f) /\
  deref (heap w2) (ReqFallbacks req) = deref (heap w) (ReqFallbacks req) /\
  wire (heap w2) req = wire (heap w) req /\
  (forall req' ipAddress w' tr0,
     Get_prepare g req w = (req', ipAddress, w', tr0) ->
     ReqFallbacks req' = ReqFallbacks req \/
     ReqFallbacks req' = Some (List.length (heap w))).
Proof.
  intros Hvalid w2.
  assert (heap w `prefix_of` heap w2) as Hpre.
  { unfold w2. rewrite Get_heap. destruct (IgnoreIPMethod g); [|done].
    by apply prefix_app_r. }
  assert (forall a f, heap w !! a = Some f -> heap w2 !! a = Some f) as Hkeep.
  { intros a f Ha. destruct Hpre as [new ->]. by apply lookup_app_l_Some. }
  assert (deref (heap w2) (ReqFallbacks req) = deref (heap w) (ReqFallbacks req))
    as Hderef.
  { destruct (ReqFallbacks req) as [a|]; [|done]. cbn in Hvalid |- *.
    destruct (lookup_lt_is_Some_2 _ _ Hvalid) as [f Hf].
    by rewrite Hf, (Hkeep _ _ Hf). }
  repeat split; try done.
  - unfold wire. by rewrite Hderef.
  - intros req' ip w' tr0. rewrite Get_prepare_run.
    destruct (IgnoreIPMethod g); intros [= <- <- <- <-]; cbn; auto.
Qed.

Lemma Get_leaves_the_callers_request_alone_witness :
  let rt := stub_runtime (answer_with 200) in
  let w2 := world_of (Get rt suppressing_globals sample_base sample_request
                          sample_world) in
  valid_ptr (heap sample_world) (ReqFallbacks sample_request) /\
  heap w2 = [mkFallbacks true true; mkFallbacks false false] /\
  deref (heap w2) (ReqFallbacks sample_request) = Some (mkFallbacks true true) /\
  wire (heap w2) sample_request = wire (heap sample_world) sample_request.
Proof.
  intros rt w2.
  assert (valid_ptr (heap sample_world) (ReqFallbacks sample_request)) as Hv
    by (cbn; lia).
  destruct (Get_leaves_the_callers_request_alone rt suppressing_globals sample_base
              sample_request sample_world Hv) as (_ & _ & Hd & Hw & _).
  split; [exact Hv|]. split; [reflexivity|]. split; [exact Hd|]. exact Hw.
Defined.

(** ** Strings and the query of the bound URL *)

Lemma append_cons (c : ascii) (s t : string) :
  String c s +:+ t = String c (s +:+ t).
Proof. reflexivity. Qed.

Lemma append_nil_l (t : string) : EmptyString +:+ t = t.
Proof. reflexivity. Qed.

Ltac unfold_append := rewrite ?append_cons, ?append_nil_l.




Lemma has_byte_append c s t :
  has_byte c (s +:+ t) = has_byte c s || has_byte c t.
Proof.
  induction s as [|d s IH]; unfold_append; cbn; [done|]. by rewrite IH, orb_assoc.
Qed.

Lemma strings_Cut_absent c s :
  has_byte c s = false -> strings_Cut c s = (s, None).
Proof.
  induction s as [|d s IH]; cbn; [done|].
  intros [Hd Hs]%orb_false_elim. by rewrite Hd, (IH Hs).
Qed.


Lemma strings_HasSuffix1_absent sep s :
  has_byte sep s = false -> strings_HasSuffix1 sep s = false.
Proof.
  induction s as [|c s IH]; [done|].
  intros [Hc Hs]%orb_false_elim. destruct s; [done|]. by apply IH.
Qed.


Lemma upperhex_unreserved n : shouldEscape (upperhex n) = false.
Proof.
  unfold upperhex. generalize (N.to_nat n) as m. intros m.
  do 16 (destruct m as [|m]; [reflexivity|]). reflexivity.
Qed.

(** A byte that [QueryEscape] escapes, other than the space, does not occur
    in its output. *)
Lemma url_QueryEscape_avoids c k :
  shouldEscape c = true -> c <> "+"%char -> c <> "%"%char ->
  has_byte c (url_QueryEscape k) = false.
Proof.
  intros Hesc Hplus Hpct.
  assert (forall n, (upperhex n =? c)%char = false) as Hhex.
  { intros n. apply Ascii.eqb_neq. intros <-.
    by rewrite upperhex_unreserved in Hesc. }
  induction k as [|d k IH]; [done|]. cbn [url_QueryEscape].
  destruct (d =? " ")%char.
  { cbn [has_byte]. rewrite IH.
    destruct (Ascii.eqb_spec "+" c); [by subst|done]. }
  destruct (shouldEscape d) eqn:Hd.
  - cbn [has_byte]. rewrite !Hhex, IH.
    destruct (Ascii.eqb_spec "%" c); [by subst|done].
  - cbn [has_byte]. rewrite IH.
    destruct (Ascii.eqb_spec d c) as [->|]; [congruence|done].
Qed.






(** * Further properties of [New] and [Get] *)

(** ** The shape of the results *)

(** X1. [New] returns either a locator and a nil error, or a nil locator and
    an error: never both nil, never both set. *)
Theorem New_returns_locator_or_error rt g serviceUrl0 apiKey :
  (exists loc, New rt g serviceUrl0 apiKey = (Some loc, None)) \/
  (exists err, New rt g serviceUrl0 apiKey = (None, Some err)).
Proof.
  rewrite New_run. destruct (String.eqb serviceUrl0 Yandex); [eauto|].
  destruct (url_ParseRequestURI rt (bound_url serviceUrl0 apiKey)); eauto.
Qed.

(** ** Failures before and during the exchange *)

(** X2. When the encoder fails, or when [http.NewRequest] cannot parse the
    bound URL, [Get] returns that very error and nothing reaches the
    transport: the trace of the call is empty. *)
Theorem Get_fails_before_sending rt g l req w req' ipAddress w' tr0 err :
  Get_prepare g req w = (req', ipAddress, w', tr0) ->
  json_Marshal rt (wire (heap w') req') = Err err \/
  ((exists data, json_Marshal rt (wire (heap w') req') = Ok data) /\
   url_Parse rt (serviceUrl l) = Some err) ->
  result_of (Get rt g l req w) = Err err /\
  trace_of (Get rt g l req w) = [] /\
  next_err (world_of (Get rt g l req w)) = next_err w.
Proof.
  intros Hp Hfail.
  rewrite (Get_run _ _ _ _ _ _ _ _ _ Hp), Get_exchange_run.
  rewrite <- (Get_prepare_next_err _ _ _ _ _ _ _ Hp).
  destruct Hfail as [Hm|[[data Hm] Hu]]; rewrite Hm; [done|]. by rewrite Hu.
Qed.

Lemma Get_fails_before_sending_witness :
  let err1 := otherError "json: unsupported value" in
  let err2 := otherError "parse: invalid URL escape" in
  (result_of (Get runtime_without_encoder initial_globals sample_base
                  sample_request sample_world) = Err err1 /\
   trace_of (Get runtime_without_encoder initial_globals sample_base
                 sample_request sample_world) = []) /\
  (result_of (Get runtime_without_url_Parse initial_globals sample_base
                  sample_request sample_world) = Err err2 /\
   trace_of (Get runtime_without_url_Parse initial_globals sample_base
                 sample_request sample_world) = []).
Proof.
  intros err1 err2. split.
  - destruct (Get_fails_before_sending runtime_without_encoder initial_globals
                sample_base sample_request sample_world sample_prepared
                "192.0.2.7" sample_world [] err1 eq_refl (or_introl eq_refl))
      as (Hr & Ht & _).
    by split.
  - destruct (Get_fails_before_sending runtime_without_url_Parse initial_globals
                sample_base sample_request sample_world sample_prepared
                "192.0.2.7" sample_world [] err2 eq_refl
                (or_intror (conj (ex_intro _ sample_body eq_refl) eq_refl)))
      as (Hr & Ht & _).
    by split.
Defined.


(** X4. When the transport fails, [Get] returns the transport's error as it
    is; the trace holds the one attempt and nothing else, so there is no
    response body to close, and no error value is allocated. *)
Theorem Get_returns_the_transport_error rt g l req w t hr err :
  (t, hr) ∈ sent (trace_of (Get rt g l req w)) ->
  client_Do rt t hr = Err err ->
  result_of (Get rt g l req w) = Err err /\
  trace_of (Get rt g l req w) = [EvDo t hr] /\
  closed (trace_of (Get rt g l req w)) = false /\
  next_err (world_of (Get rt g l req w)) = next_err w.
Proof.
  intros Hin Hdo.
  destruct (Get_prepare_total g req w) as (req' & ip & w' & Hp).
  destruct (Get_sent_inv _ _ _ _ _ _ _ _ _ _ _ Hp Hin) as (-> & Hurl & data & Hm & ->).
  rewrite (Get_run _ _ _ _ _ _ _ _ _ Hp), Get_exchange_run, Hm, Hurl.
  cbn zeta. rewrite Hdo. rewrite <- (Get_prepare_next_err _ _ _ _ _ _ _ Hp). done.
Qed.

Lemma Get_returns_the_transport_error_witness :
  let rt := stub_runtime unreachable in
  let hr := built_request initial_globals sample_base "192.0.2.7" sample_body in
  (Second * 30, hr) ∈
    sent (trace_of (Get rt initial_globals sample_base sample_request sample_world)) /\
  result_of (Get rt initial_globals sample_base sample_request sample_world)
  = Err (otherError "dial tcp: connection refused") /\
  closed (trace_of (Get rt initial_globals sample_base sample_request sample_world))
  = false.
Proof.
  intros rt hr.
  assert ((Second * 30, hr) ∈
    sent (trace_of (Get rt initial_globals sample_base sample_request sample_world)))
    as Hin by (apply list_elem_of_singleton; vm_compute; reflexivity).
  destruct (Get_returns_the_transport_error rt initial_globals sample_base
              sample_request sample_world (Second * 30) hr
              (otherError "dial tcp: connection refused") Hin eq_refl)
    as (Hr & _ & Hc & _).
  split; [exact Hin|]. by split.
Defined.

(** X5. On status 200 [Get] returns what the decoder makes of the body, so
    a decoding error is returned as it is; the body is closed after the
    decoding in both cases, and no error value is allocated. *)
Theorem Get_decodes_and_closes_on_200 rt g l req w t hr resp :
  (t, hr) ∈ sent (trace_of (Get rt g l req w)) ->
  client_Do rt t hr = Ok resp ->
  StatusCode resp = 200 ->
  result_of (Get rt g l req w) = json_Decode rt (RespBody resp) /\
  trace_of (Get rt g l req w) = [EvDo t hr; EvClose] /\
  next_err (world_of (Get rt g l req w)) = next_err w.
Proof.
  intros Hin Hdo H200.
  destruct (Get_prepare_total g req w) as (req' & ip & w' & Hp).
  rewrite (Get_answered _ _ _ _ _ _ _ _ _ _ _ _ Hp Hin Hdo).
  rewrite <- (Get_prepare_next_err _ _ _ _ _ _ _ Hp).
  unfold answer_outcome. by rewrite H200.
Qed.

Lemma Get_decodes_and_closes_on_200_witness :
  let rt := stub_runtime answer_with_empty_body in
  let hr := built_request initial_globals sample_base "192.0.2.7" sample_body in
  (Second * 30, hr) ∈
    sent (trace_of (Get rt initial_globals sample_base sample_request sample_world)) /\
  result_of (Get rt initial_globals sample_base sample_request sample_world)
  = Err (otherError "EOF") /\
  trace_of (Get rt initial_globals sample_base sample_request sample_world)
  = [EvDo (Second * 30) hr; EvClose].
Proof.
  intros rt hr.
  assert ((Second * 30, hr) ∈
    sent (trace_of (Get rt initial_globals sample_base sample_request sample_world)))
    as Hin by (apply list_elem_of_singleton; vm_compute; reflexivity).
  destruct (Get_decodes_and_closes_on_200 rt initial_globals sample_base
              sample_request sample_world (Second * 30) hr
              (mkHttpResponse 200 EmptyString) Hin eq_refl eq_refl)
    as (Hr & Ht & _).
  split; [exact Hin|]. by split.
Defined.

(** ** The request and its headers *)

Lemma built_request_other_header g l ipAddress data k :
  k <> "User-Agent" -> k <> "Content-Type" -> k <> "X-Forwarded-For" ->
  Header (built_request g l ipAddress data) !! k = None.
Proof.
  intros Hua Hct Hxff. unfold built_request. destruct (negb _); cbn.
  - rewrite !lookup_insert_ne by done. apply lookup_empty.
  - rewrite !lookup_insert_ne by done. apply lookup_empty.
Qed.

(** X6. Every request [Get] sends is a POST whose [Content-Type] is
    [application/json] and whose [User-Agent] is the global one, each with a
    single value; apart from these two and [X-Forwarded-For] the request
    has no header. *)
Theorem Get_sets_exactly_its_headers rt g l req w t hr :
  (t, hr) ∈ sent (trace_of (Get rt g l req w)) ->
  Method hr = "POST" /\
  URL hr = serviceUrl l /\
  Header hr !! "Content-Type" = Some ["application/json"] /\
  Header hr !! "User-Agent" = Some [UserAgent g] /\
  (forall k, k <> "User-Agent" -> k <> "Content-Type" -> k <> "X-Forwarded-For" ->
             Header hr !! k = None).
Proof.
  intros Hin.
  destruct (Get_prepare_total g req w) as (req' & ip & w' & Hp).
  destruct (Get_sent_inv _ _ _ _ _ _ _ _ _ _ _ Hp Hin) as (_ & _ & data & _ & ->).
  split; [apply built_request_Method|]. split; [apply built_request_URL|].
  split; [apply built_request_Content_Type|].
  split; [apply built_request_User_Agent|].
  intros k. apply built_request_other_header.
Qed.

Lemma Get_sets_exactly_its_headers_witness :
  let rt := stub_runtime (answer_with 200) in
  let hr := built_request initial_globals sample_base "192.0.2.7" sample_body in
  (Second * 30, hr) ∈
    sent (trace_of (Get rt initial_globals sample_base sample_request sample_world)) /\
  Header hr !! "Content-Type" = Some ["application/json"] /\
  Header hr !! "User-Agent" = Some ["GeoTrack/1.0"] /\
  Header hr !! "Authorization" = None.
Proof.
  intros rt hr.
  assert ((Second * 30, hr) ∈
    sent (trace_of (Get rt initial_globals sample_base sample_request sample_world)))
    as Hin by (apply list_elem_of_singleton; vm_compute; reflexivity).
  destruct (Get_sets_exactly_its_headers rt initial_globals sample_base
              sample_request sample_world (Second * 30) hr Hin)
    as (_ & _ & Hct & Hua & Hno).
  split; [exact Hin|]. split; [exact Hct|]. split; [exact Hua|].
  apply Hno; discriminate.
Defined.

(** ** Errors for unexpected statuses *)

Lemma unexpected_status_spec code :
  unexpected_status code = true ->
  (code =? 200) = false /\ (code =? 400) = false /\
  (code =? 403) = false /\ (code =? 404) = false.
Proof.
  unfold unexpected_status. intros H%negb_true_iff.
  by repeat apply orb_false_elim in H as [H ?].
Qed.

(** The address counter never goes back. *)
Lemma Get_next_err_monotone rt g l req w :
  (next_err w <= next_err (world_of (Get rt g l req w)))%nat.
Proof.
  destruct (Get_prepare_total g req w) as (req' & ip & w' & Hp).
  rewrite (Get_run _ _ _ _ _ _ _ _ _ Hp), Get_exchange_run.
  rewrite <- (Get_prepare_next_err _ _ _ _ _ _ _ Hp).
  destruct (json_Marshal rt (wire (heap w') req')); [|done].
  destruct (url_Parse rt (serviceUrl l)); [done|]. cbn zeta.
  destruct (client_Do rt _ _) as [resp|]; [|done].
  unfold answer_outcome.
  repeat (destruct (StatusCode resp =? _); [done|]). cbn. lia.
Qed.

(** X7. In a store where the three package errors are allocated (the
    address counter is at least 3, which every call preserves), the error
    [Get] returns for a status outside 200, 400, 403 and 404 is a new value:
    its address is none of the three, so it is identical to none of
    [ErrBadRequest], [ErrForbidden] and [ErrNotFound]. *)
Theorem unexpected_status_error_is_no_sentinel rt g l req w t hr resp :
  (3 <= next_err w)%nat ->
  (t, hr) ∈ sent (trace_of (Get rt g l req w)) ->
  client_Do rt t hr = Ok resp ->
  unexpected_status (StatusCode resp) = true ->
  (3 <= next_err (world_of (Get rt g l req w)))%nat /\
  exists err,
    result_of (Get rt g l req w) = Err err /\
    addr_of err <> addr_of ErrBadRequest /\
    addr_of err <> addr_of ErrForbidden /\
    addr_of err <> addr_of ErrNotFound /\
    err <> ErrBadRequest /\ err <> ErrForbidden /\ err <> ErrNotFound.
Proof.
  intros Hinit Hin Hdo Hother.
  split; [pose proof (Get_next_err_monotone rt g l req w); lia|].
  destruct (unexpected_status_spec _ Hother) as (H200 & H400 & H403 & H404).
  destruct (Get_prepare_total g req w) as (req' & ip & w' & Hp).
  rewrite (Get_answered _ _ _ _ _ _ _ _ _ _ _ _ Hp Hin Hdo).
  unfold answer_outcome. rewrite H200, H400, H403, H404.
  rewrite (Get_prepare_next_err _ _ _ _ _ _ _ Hp).
  eexists. split; [reflexivity|].
  assert (forall a s (e : error) b, addr_of e = Some b -> a <> b ->
            addr_of (errorString a s) <> addr_of e /\ errorString a s <> e) as Hne.
  { intros a s e b He Hab. split; [cbn; rewrite He; congruence|].
    intros <-. cbn in He. congruence. }
  destruct (Hne (next_err w) (http_StatusText (StatusCode resp))
                ErrBadRequest 0%nat eq_refl ltac:(lia)).
  destruct (Hne (next_err w) (http_StatusText (StatusCode resp))
                ErrForbidden 1%nat eq_refl ltac:(lia)).
  destruct (Hne (next_err w) (http_StatusText (StatusCode resp))
                ErrNotFound 2%nat eq_refl ltac:(lia)).
  done.
Qed.

Lemma unexpected_status_error_is_no_sentinel_witness :
  let rt := stub_runtime (answer_with 500) in
  let hr := built_request initial_globals sample_base "192.0.2.7" sample_body in
  (3 <= next_err sample_world)%nat /\
  (Second * 30, hr) ∈
    sent (trace_of (Get rt initial_globals sample_base sample_request sample_world)) /\
  unexpected_status 500 = true /\
  exists err,
    result_of (Get rt initial_globals sample_base sample_request sample_world)
    = Err err /\
    err <> ErrBadRequest /\ err <> ErrForbidden /\ err <> ErrNotFound.
Proof.
  intros rt hr.
  assert ((3 <= next_err sample_world)%nat) as Hinit by (vm_compute; lia).
  assert ((Second * 30, hr) ∈
    sent (trace_of (Get rt initial_globals sample_base sample_request sample_world)))
    as Hin by (apply list_elem_of_singleton; vm_compute; reflexivity).
  destruct (unexpected_status_error_is_no_sentinel rt initial_globals sample_base
              sample_request sample_world (Second * 30) hr
              (mkHttpResponse 500 "{}") Hinit Hin eq_refl eq_refl)
    as (_ & err & Hr & _ & _ & _ & Hb & Hf & Hn).
  split; [exact Hinit|]. split; [exact Hin|]. split; [reflexivity|].
  exists err. done.
Defined.

(** X8. Two calls in a row that are both answered with an unexpected
    status return two different error values, even for the same status:
    unlike the three package errors, these cannot be recognised by
    identity. *)
Theorem unexpected_status_errors_differ_between_calls
    rt g l req w t hr resp rt2 g2 l2 req2 t2 hr2 resp2 :
  let w1 := world_of (Get rt g l req w) in
  (t, hr) ∈ sent (trace_of (Get rt g l req w)) ->
  client_Do rt t hr = Ok resp ->
  unexpected_status (StatusCode resp) = true ->
  (t2, hr2) ∈ sent (trace_of (Get rt2 g2 l2 req2 w1)) ->
  client_Do rt2 t2 hr2 = Ok resp2 ->
  unexpected_status (StatusCode resp2) = true ->
  exists err err2,
    result_of (Get rt g l req w) = Err err /\
    result_of (Get rt2 g2 l2 req2 w1) = Err err2 /\
    addr_of err <> addr_of err2 /\
    err <> err2.
Proof.
  intros w1 Hin Hdo Hother Hin2 Hdo2 Hother2.
  destruct (unexpected_status_spec _ Hother) as (H200 & H400 & H403 & H404).
  destruct (unexpected_status_spec _ Hother2) as (H200' & H400' & H403' & H404').
  assert (next_err w1 = S (next_err w) /\
          result_of (Get rt g l req w)
          = Err (errorString (next_err w) (http_StatusText (StatusCode resp))))
    as [Hw1 Hr1].
  { unfold w1. destruct (Get_prepare_total g req w) as (req' & ip & w' & Hp).
    rewrite (Get_answered _ _ _ _ _ _ _ _ _ _ _ _ Hp Hin Hdo).
    unfold answer_outcome. rewrite H200, H400, H403, H404.
    by rewrite (Get_prepare_next_err _ _ _ _ _ _ _ Hp). }
  assert (result_of (Get rt2 g2 l2 req2 w1)
          = Err (errorString (next_err w1) (http_StatusText (StatusCode resp2))))
    as Hr2.
  { destruct (Get_prepare_total g2 req2 w1) as (req' & ip & w' & Hp).
    rewrite (Get_answered _ _ _ _ _ _ _ _ _ _ _ _ Hp Hin2 Hdo2).
    unfold answer_outcome. rewrite H200', H400', H403', H404'.
    by rewrite (Get_prepare_next_err _ _ _ _ _ _ _ Hp). }
  rewrite Hr1, Hr2, Hw1. eexists _, _. split; [reflexivity|].
  split; [reflexivity|]. split; [cbn; intros [=]; lia|intros [=]; lia].
Qed.

Lemma unexpected_status_errors_differ_between_calls_witness :
  let rt := stub_runtime (answer_with 500) in
  let hr := built_request initial_globals sample_base "192.0.2.7" sample_body in
  let w1 := world_of (Get rt initial_globals sample_base sample_request
                          sample_world) in
  result_of (Get rt initial_globals sample_base sample_request sample_world)
  = Err (errorString 3 "Internal Server Error") /\
  result_of (Get rt initial_globals sample_base sample_request w1)
  = Err (errorString 4 "Internal Server Error") /\
  exists err err2,
    result_of (Get rt initial_globals sample_base sample_request sample_world)
    = Err err /\
    result_of (Get rt initial_globals sample_base sample_request w1) = Err err2 /\
    err <> err2.
Proof.
  intros rt hr w1.
  assert ((Second * 30, hr) ∈
    sent (trace_of (Get rt initial_globals sample_base sample_request sample_world)))
    as Hin by (apply list_elem_of_singleton; vm_compute; reflexivity).
  assert ((Second * 30, hr) ∈
    sent (trace_of (Get rt initial_globals sample_base sample_request w1)))
    as Hin2 by (apply list_elem_of_singleton; vm_compute; reflexivity).
  destruct (unexpected_status_errors_differ_between_calls
              rt initial_globals sample_base sample_request sample_world
              (Second * 30) hr (mkHttpResponse 500 "{}")
              rt initial_globals sample_base sample_request
              (Second * 30) hr (mkHttpResponse 500 "{}")
              Hin eq_refl eq_refl Hin2 eq_refl eq_refl)
    as (err & err2 & Hr & Hr2 & _ & Hne).
  split; [reflexivity|]. split; [reflexivity|]. exists err, err2. done.
Defined.

(** ** What of the argument matters *)

(** X9. The [ConsiderIp] the caller puts in the request never matters: a
    call has the same result, store and trace whatever its value.  With
    [IgnoreIPMethod] set the same holds for the caller's [Fallbacks]
    pointer. *)
Theorem Get_ignores_the_callers_ConsiderIp rt g l req w :
  (forall b, Get rt g l (set_ConsiderIp b req) w = Get rt g l req w) /\
  (IgnoreIPMethod g = true ->
   forall p, Get rt g l (set_Fallbacks p req) w = Get rt g l req w).
Proof.
  split.
  - intros b. unfold Get, mbind, M_bind. rewrite !Get_prepare_run.
    by destruct (IgnoreIPMethod g).
  - intros Hflag p. unfold Get, mbind, M_bind. rewrite !Get_prepare_run.
    by rewrite Hflag.
Qed.

(** X10. [Get] passes on what it does not adjust: the body is the encoding
    of a request with the caller's towers and access points, and, when
    [IgnoreIPMethod] is off, with [ConsiderIp] true and the [Fallbacks]
    object the caller's request points to, as it is in the store. *)
Theorem Get_passes_on_the_observations
    rt g l req w req' ipAddress w' tr0 t hr :
  Get_prepare g req w = (req', ipAddress, w', tr0) ->
  (t, hr) ∈ sent (trace_of (Get rt g l req w)) ->
  json_Marshal rt (wire (heap w') req') = Ok (Body hr) /\
  wCellTowers (wire (heap w') req') = CellTowers req /\
  wWifiAccessPoints (wire (heap w') req') = WifiAccessPoints req /\
  (IgnoreIPMethod g = false ->
   wConsiderIp (wire (heap w') req') = true /\
   wFallbacks (wire (heap w') req') = deref (heap w) (ReqFallbacks req)).
Proof.
  intros Hp Hin. split; [by eapply Get_sent_Body|].
  rewrite (Get_prepare_wire _ _ _ _ _ _ _ Hp). cbn.
  split; [done|]. split; [done|]. by intros ->.
Qed.

Lemma Get_passes_on_the_observations_witness :
  let rt := stub_runtime (answer_with 200) in
  let hr := built_request initial_globals sample_base "192.0.2.7" sample_body in
  (Second * 30, hr) ∈
    sent (trace_of (Get rt initial_globals sample_base sample_request sample_world)) /\
  wCellTowers (wire (heap sample_world) sample_prepared)
  = [mkCellTower 250 1 7800 12345 (-70)] /\
  wFallbacks (wire (heap sample_world) sample_prepared)
  = Some (mkFallbacks true true).
Proof.
  intros rt hr.
  assert ((Second * 30, hr) ∈
    sent (trace_of (Get rt initial_globals sample_base sample_request sample_world)))
    as Hin by (apply list_elem_of_singleton; vm_compute; reflexivity).
  destruct (Get_passes_on_the_observations rt initial_globals sample_base
              sample_request sample_world sample_prepared "192.0.2.7"
              sample_world [] (Second * 30) hr eq_refl Hin)
    as (_ & Ht & _ & Hoff).
  split; [exact Hin|]. split; [exact Ht|].
  destruct (Hoff eq_refl) as [_ Hf]. exact Hf.
Defined.

(** X11. [Get] keeps nothing from one call to the next: in two stores in
    which the caller's [Fallbacks] pointer leads to the same object, the
    same call hands the same requests to the transport and closes the body
    in the same cases. *)
Theorem Get_keeps_no_session_state rt g l req w1 w2 :
  deref (heap w1) (ReqFallbacks req) = deref (heap w2) (ReqFallbacks req) ->
  sent (trace_of (Get rt g l req w1)) = sent (trace_of (Get rt g l req w2)) /\
  closed (trace_of (Get rt g l req w1)) = closed (trace_of (Get rt g l req w2)).
Proof.
  intros Hsame.
  destruct (Get_prepare_total g req w1) as (r1 & ip1 & v1 & Hp1).
  destruct (Get_prepare_total g req w2) as (r2 & ip2 & v2 & Hp2).
  pose proof (Get_prepare_wire _ _ _ _ _ _ _ Hp1) as Hw1.
  pose proof (Get_prepare_wire _ _ _ _ _ _ _ Hp2) as Hw2.
  rewrite Hsame, <- Hw2 in Hw1.
  destruct (Get_prepare_ipAddress _ _ _ _ _ _ _ Hp1) as [-> _].
  destruct (Get_prepare_ipAddress _ _ _ _ _ _ _ Hp2) as [-> _].
  rewrite (Get_run _ _ _ _ _ _ _ _ _ Hp1), (Get_run _ _ _ _ _ _ _ _ _ Hp2).
  rewrite !Get_exchange_run, Hw1.
  destruct (json_Marshal rt (wire (heap v2) r2)) as [data|]; [|done].
  destruct (url_Parse rt (serviceUrl l)); [done|]. cbn zeta.
  destruct (client_Do rt _ _) as [resp|]; [|done].
  pose proof (answer_outcome_trace rt resp v1) as Ht1.
  pose proof (answer_outcome_trace rt resp v2) as Ht2.
  destruct (answer_outcome rt resp v1) as [[? ?] tr1].
  destruct (answer_outcome rt resp v2) as [[? ?] tr2].
  cbn in Ht1, Ht2 |- *. by subst tr1 tr2.
Qed.

Lemma Get_keeps_no_session_state_witness :
  let rt := stub_runtime (answer_with 500) in
  let w1 := world_of (Get rt suppressing_globals sample_base sample_request
                          sample_world) in
  heap w1 = [mkFallbacks true true; mkFallbacks false false] /\
  next_err w1 = 4%nat /\
  deref (heap sample_world) (ReqFallbacks sample_request)
  = deref (heap w1) (ReqFallbacks sample_request) /\
  sent (trace_of (Get rt suppressing_globals sample_base sample_request sample_world))
  = sent (trace_of (Get rt suppressing_globals sample_base sample_request w1)).
Proof.
  intros rt w1.
  assert (deref (heap sample_world) (ReqFallbacks sample_request)
          = deref (heap w1) (ReqFallbacks sample_request)) as Hsame by reflexivity.
  destruct (Get_keeps_no_session_state rt suppressing_globals sample_base
              sample_request sample_world w1 Hsame) as [Hs _].
  split; [reflexivity|]. split; [reflexivity|]. split; [exact Hsame|]. exact Hs.
Defined.

(** ** The endpoints [New] turns down *)

Lemma getScheme_from_no_colon s : forall rawURL i,
  has_byte ":" s = false ->
  getScheme_from rawURL i s = Ok (EmptyString, rawURL).
Proof.
  induction s as [|c s IH]; intros rawURL i Hs; [done|].
  cbn [has_byte] in Hs. apply orb_false_elim in Hs as [Hc Hs].
  cbn [getScheme_from].
  destruct (is_letter c); [by apply IH|].
  destruct (is_digit c || (c =? "+")%char || (c =? "-")%char || (c =? ".")%char).
  { destruct (Nat.eqb i 0); [done|by apply IH]. }
  by rewrite Hc.
Qed.

Lemma prefix_slash_cons c t :
  String.prefix "/" (String c t) = if ascii_dec "/" c then true else false.
Proof.
  change (String.prefix "/" (String c t))
    with (if ascii_dec "/" c then String.prefix EmptyString t else false).
  destruct (ascii_dec "/" c); [by destruct t|done].
Qed.

Lemma prefix_slash_false c t :
  c <> "/"%char -> String.prefix "/" (String c t) = false.
Proof. intros Hc. rewrite prefix_slash_cons. by destruct (ascii_dec "/" c). Qed.

Lemma prefix_slash_first c t :
  String.prefix "/" (String c t) = false -> c <> "/"%char.
Proof. rewrite prefix_slash_cons. by destruct (ascii_dec "/" c). Qed.

(** Splitting off the query leaves the first byte where it was. *)
Lemma split_query_no_slash s :
  String.prefix "/" s = false ->
  String.prefix "/" (fst (split_query s)) = false.
Proof.
  destruct s as [|c t]; [done|]. intros Hc%prefix_slash_first.
  unfold split_query.
  destruct (strings_HasSuffix1 "?" (String c t) && _).
  - cbn [fst String.length]. rewrite Nat.sub_1_r. cbn [Nat.pred].
    destruct (String.length t); [done|]. cbn [substring].
    by apply prefix_slash_false.
  - cbn [strings_Cut]. destruct (c =? "?")%char; [done|].
    destruct (strings_Cut "?" t) as [b [a|]]; by apply prefix_slash_false.
Qed.

Lemma bound_url_no_colon serviceUrl0 apiKey :
  has_byte ":" serviceUrl0 = false ->
  has_byte ":" (bound_url serviceUrl0 apiKey) = false.
Proof.
  intros Hs. unfold bound_url. destruct (negb _); [|done].
  rewrite !has_byte_append, Hs, url_QueryEscape_avoids; done.
Qed.

Lemma bound_url_no_slash serviceUrl0 apiKey :
  String.prefix "/" serviceUrl0 = false ->
  String.prefix "/" (bound_url serviceUrl0 apiKey) = false.
Proof.
  intros Hs. unfold bound_url. destruct (negb _); [|done].
  destruct serviceUrl0 as [|c t]; [done|]. unfold_append.
  apply prefix_slash_false. by eapply prefix_slash_first.
Qed.

Lemma bound_url_star serviceUrl0 apiKey :
  bound_url serviceUrl0 apiKey = "*" ->
  serviceUrl0 = "*" /\ apiKey = EmptyString.
Proof.
  unfold bound_url.
  destruct (String.eqb_spec apiKey EmptyString) as [->|_]; [done|]. cbn [negb].
  destruct serviceUrl0 as [|c [|d t]]; discriminate.
Qed.

(** X12. An endpoint that has no colon must start with a slash: any other
    one, the empty endpoint included, makes [New] return a nil locator and
    an error, with or without a key and whatever the authority and path
    stage of the parser would say.  The one exception is the bare [*]
    without a key. *)
Theorem New_rejects_endpoint_without_colon_or_slash rt g serviceUrl0 apiKey :
  has_byte ":" serviceUrl0 = false ->
  String.prefix "/" serviceUrl0 = false ->
  ~ (serviceUrl0 = "*" /\ apiKey = EmptyString) ->
  exists err, New rt g serviceUrl0 apiKey = (None, Some err).
Proof.
  intros Hcolon Hslash Hstar. rewrite New_run.
  destruct (String.eqb_spec serviceUrl0 Yandex) as [->|_]; [discriminate|].
  pose proof (bound_url_no_colon _ apiKey Hcolon) as Hc.
  pose proof (bound_url_no_slash _ apiKey Hslash) as Hs.
  pose proof (bound_url_star serviceUrl0 apiKey) as Hb.
  destruct (bound_url serviceUrl0 apiKey) as [|c t] eqn:Hu.
  { unfold url_ParseRequestURI, parse_viaRequest. cbn. eauto. }
  rewrite <- Hu in *. clear Hu.
  unfold url_ParseRequestURI, parse_viaRequest.
  destruct (stringContainsCTLByte _); [eauto|].
  destruct (String.eqb _ EmptyString); [eauto|].
  destruct (String.eqb_spec (bound_url serviceUrl0 apiKey) "*") as [He|_];
    [by destruct Hstar; apply Hb|].
  unfold getScheme. rewrite (getScheme_from_no_colon _ _ _ Hc).
  cbn [strings_ToLower]. rewrite (split_query_no_slash _ Hs). cbn. eauto.
Qed.

Lemma New_rejects_endpoint_without_colon_or_slash_witness :
  let rt := stub_runtime (answer_with 200) in
  has_byte ":" "example.com/geolocate" = false /\
  String.prefix "/" "example.com/geolocate" = false /\
  (exists err, New rt initial_globals "example.com/geolocate" "abc123"
               = (None, Some err)) /\
  (exists err, New rt initial_globals EmptyString EmptyString = (None, Some err)).
Proof.
  intros rt. split; [reflexivity|]. split; [reflexivity|]. split.
  - apply (New_rejects_endpoint_without_colon_or_slash rt initial_globals
             "example.com/geolocate" "abc123"); [reflexivity|reflexivity|].
    intros [H _]. discriminate H.
  - apply (New_rejects_endpoint_without_colon_or_slash rt initial_globals
             EmptyString EmptyString); [reflexivity|reflexivity|].
    intros [H _]. discriminate H.
Defined.

(** ** The key in the bound URL *)

(** Every byte [QueryEscape] puts out is one it keeps, a plus or a percent
    sign. *)
Lemma url_QueryEscape_bytes k c :
  has_byte c (url_QueryEscape k) = true ->
  shouldEscape c = false \/ c = "+"%char \/ c = "%"%char.
Proof.
  intros Hin. destruct (shouldEscape c) eqn:Hesc; [|by left]. right.
  destruct (ascii_dec c "+") as [|Hplus]; [by left|].
  destruct (ascii_dec c "%") as [|Hpct]; [by right|].
  by rewrite url_QueryEscape_avoids in Hin.
Qed.

(** X13. In the URL of a [base] client that [New] built with a key, what
    follows [?key=] is made only of bytes that [QueryEscape] keeps, plus
    and percent signs: whatever the key, it brings no [&], [=], [#], [?],
    [/] or space into the URL, so it cannot end the parameter or start
    another one. *)
Theorem New_escapes_the_key rt g serviceUrl0 apiKey l :
  apiKey <> EmptyString ->
  New rt g serviceUrl0 apiKey = (Some (LBase l), None) ->
  exists escaped,
    serviceUrl l = serviceUrl0 +:+ "?key=" +:+ escaped /\
    (forall c, has_byte c escaped = true ->
               shouldEscape c = false \/ c = "+"%char \/ c = "%"%char) /\
    has_byte "&" escaped = false /\ has_byte "=" escaped = false /\
    has_byte "#" escaped = false /\ has_byte "?" escaped = false /\
    has_byte "/" escaped = false /\ has_byte " " escaped = false.
Proof.
  intros Hkey Hnew. apply New_base_inv in Hnew as (_ & _ & -> & _).
  exists (url_QueryEscape apiKey). cbn [serviceUrl]. split.
  { unfold bound_url. by destruct (String.eqb_spec apiKey EmptyString). }
  split; [intros c; apply url_QueryEscape_bytes|].
  repeat split; by apply url_QueryEscape_avoids.
Qed.

Lemma New_escapes_the_key_witness :
  let rt := stub_runtime (answer_with 200) in
  let l := mkBase (Mozilla +:+ "?key=a%26b%3D1+2%2F%23") (mkClient (Second * 30)) in
  New rt initial_globals Mozilla "a&b=1 2/#" = (Some (LBase l), None) /\
  exists escaped,
    serviceUrl l = Mozilla +:+ "?key=" +:+ escaped /\
    has_byte "&" escaped = false /\ has_byte "#" escaped = false.
Proof.
  intros rt l.
  assert (New rt initial_globals Mozilla "a&b=1 2/#" = (Some (LBase l), None))
    as Hnew by reflexivity.
  destruct (New_escapes_the_key rt initial_globals Mozilla "a&b=1 2/#" l
              ltac:(discriminate) Hnew)
    as (escaped & Hu & _ & Hamp & _ & Hhash & _).
  split; [exact Hnew|]. exists escaped. done.
Defined.

Lemma url_QueryEscape_length k :
  (String.length k <= String.length (url_QueryEscape k))%nat.
Proof.
  induction k as [|c k IH]; [done|]. cbn [url_QueryEscape].
  destruct (c =? " ")%char; [cbn [String.length]; lia|].
  destruct (shouldEscape c); cbn [String.length]; lia.
Qed.

(** [QueryEscape] leaves a key as it is exactly when no byte of the key
    needs escaping. *)
Lemma url_QueryEscape_fixpoint k :
  url_QueryEscape k = k <-> unreserved_only k = true.
Proof.
  induction k as [|c k IH]; [done|].
  cbn [url_QueryEscape unreserved_only].
  destruct (Ascii.eqb_spec c " ") as [->|Hsp].
  { cbn. split; [|done]. intros [=]. }
  destruct (shouldEscape c) eqn:Hesc; cbn [negb andb].
  - split; [|done]. intros [= <- Hk].
    pose proof (url_QueryEscape_length k) as Hlen.
    rewrite <- Hk in Hlen at 1. cbn [String.length] in Hlen. lia.
  - rewrite <- IH. split; [by intros [= ->]|by intros ->].
Qed.

(** X14. A key is appended as it is exactly when it is made of letters,
    digits and the marks [-], [_], [.], [~]: for such a key the URL [New]
    validates and binds is the endpoint, [?key=] and the key itself, and
    for any other key it is not. *)
Theorem New_appends_unreserved_key_verbatim rt g serviceUrl0 apiKey :
  serviceUrl0 <> Yandex ->
  apiKey <> EmptyString ->
  (unreserved_only apiKey = true ->
   New rt g serviceUrl0 apiKey =
     match url_ParseRequestURI rt (serviceUrl0 +:+ "?key=" +:+ apiKey) with
     | Some err => (None, Some err)
     | None => (Some (LBase (mkBase (serviceUrl0 +:+ "?key=" +:+ apiKey)
                                    (mkClient (RequestTimeout g)))), None)
     end) /\
  (unreserved_only apiKey = false ->
   forall l, New rt g serviceUrl0 apiKey = (Some (LBase l), None) ->
             serviceUrl l <> serviceUrl0 +:+ "?key=" +:+ apiKey).
Proof.
  intros Hne Hkey.
  assert (bound_url serviceUrl0 apiKey
          = serviceUrl0 +:+ "?key=" +:+ url_QueryEscape apiKey) as Hu.
  { unfold bound_url. by destruct (String.eqb_spec apiKey EmptyString). }
  split.
  - intros Hun%url_QueryEscape_fixpoint. rewrite New_run, Hu, Hun.
    by destruct (String.eqb_spec serviceUrl0 Yandex).
  - intros Hres l Hnew. apply New_base_inv in Hnew as (_ & _ & -> & _).
    cbn [serviceUrl]. rewrite Hu. intros Heq.
    apply (inj (String.append serviceUrl0)) in Heq.
    apply (inj (String.append "?key=")) in Heq.
    apply url_QueryEscape_fixpoint in Heq. congruence.
Qed.

Lemma New_appends_unreserved_key_verbatim_witness :
  let rt := stub_runtime (answer_with 200) in
  Google <> Yandex /\
  unreserved_only "AIza-Sy_D.9~x" = true /\
  New rt initial_globals Google "AIza-Sy_D.9~x"
  = (Some (LBase (mkBase (Google +:+ "?key=AIza-Sy_D.9~x")
                         (mkClient (Second * 30)))), None) /\
  unreserved_only "a b" = false /\
  New rt initial_globals Google "a b"
  = (Some (LBase (mkBase (Google +:+ "?key=a+b") (mkClient (Second * 30)))), None).
Proof.
  intros rt.
  assert (Google <> Yandex) as Hne by discriminate.
  destruct (New_appends_unreserved_key_verbatim rt initial_globals Google
              "AIza-Sy_D.9~x" Hne ltac:(discriminate)) as [Hsame _].
  split; [exact Hne|]. split; [reflexivity|]. split; [exact (Hsame eq_refl)|].
  split; reflexivity.
Defined.

(** ** A client without a key *)

Lemma strings_Cut_before_absent c d s :
  has_byte c s = false -> has_byte c (fst (strings_Cut d s)) = false.
Proof.
  induction s as [|x s IH]; [done|]. cbn [has_byte strings_Cut].
  intros [Hx Hs]%orb_false_elim.
  destruct (x =? d)%char; [done|].
  specialize (IH Hs). destruct (strings_Cut d s) as [b a].
  cbn [fst has_byte] in *. by rewrite Hx, IH.
Qed.

(** What the scan for the scheme leaves has no byte that the URL lacks. *)
Lemma getScheme_from_absent c s : forall rawURL i sch rest,
  has_byte c rawURL = false ->
  has_byte c s = false ->
  getScheme_from rawURL i s = Ok (sch, rest) ->
  has_byte c rest = false.
Proof.
  induction s as [|x s IH]; intros rawURL i sch rest Hraw Hs.
  - by intros [= <- <-].
  - cbn [has_byte] in Hs. apply orb_false_elim in Hs as [Hx Hs].
    cbn [getScheme_from].
    destruct (is_letter x); [by apply IH|].
    destruct (is_digit x || (x =? "+")%char || (x =? "-")%char || (x =? ".")%char).
    { destruct (Nat.eqb i 0); [by intros [= <- <-]|by apply IH]. }
    destruct (x =? ":")%char; [|by intros [= <- <-]].
    destruct (Nat.eqb i 0); [done|]. by intros [= <- <-].
Qed.

Lemma RawQuery_without_question_mark rawURL :
  has_byte "?" rawURL = false -> RawQuery rawURL = EmptyString.
Proof.
  intros Hq. unfold RawQuery.
  pose proof (strings_Cut_before_absent "?" "#" rawURL Hq) as Hu.
  destruct (getScheme (fst (strings_Cut "#" rawURL))) as [[sch rest]|] eqn:Hs;
    [|done].
  pose proof (getScheme_from_absent _ _ _ _ _ _ Hu Hu Hs) as Hrest.
  unfold split_query.
  rewrite (strings_HasSuffix1_absent _ _ Hrest). cbn [andb].
  by rewrite (strings_Cut_absent _ _ Hrest).
Qed.

(** X15. Without a key, [New] validates and binds the endpoint as it is
    given: every request of the client is posted to exactly that string,
    and when the endpoint has no question mark the request URL has an empty
    query, so no [key] parameter is sent. *)
Theorem New_without_key_binds_the_endpoint rt g serviceUrl0 l :
  New rt g serviceUrl0 EmptyString = (Some (LBase l), None) ->
  url_ParseRequestURI rt serviceUrl0 = None /\
  serviceUrl l = serviceUrl0 /\
  (forall g2 req w t hr,
     (t, hr) ∈ sent (trace_of (Get rt g2 l req w)) -> URL hr = serviceUrl0) /\
  (has_byte "?" serviceUrl0 = false -> RawQuery (serviceUrl l) = EmptyString).
Proof.
  intros Hnew. apply New_base_inv in Hnew as (_ & Hparse & -> & _).
  cbn [bound_url String.eqb negb serviceUrl] in *.
  split; [exact Hparse|]. split; [done|]. split.
  - intros g2 req w t hr Hin.
    destruct (Get_prepare_total g2 req w) as (req' & ip & w' & Hp).
    destruct (Get_sent_inv _ _ _ _ _ _ _ _ _ _ _ Hp Hin) as (_ & _ & data & _ & ->).
    by rewrite built_request_URL.
  - apply RawQuery_without_question_mark.
Qed.

Lemma New_without_key_binds_the_endpoint_witness :
  let rt := stub_runtime (answer_with 200) in
  let l := mkBase Google (mkClient (Second * 30)) in
  New rt initial_globals Google EmptyString = (Some (LBase l), None) /\
  serviceUrl l = "https://www.googleapis.com/geolocation/v1/geolocate" /\
  RawQuery (serviceUrl l) = EmptyString.
Proof.
  intros rt l.
  assert (New rt initial_globals Google EmptyString = (Some (LBase l), None))
    as Hnew by reflexivity.
  destruct (New_without_key_binds_the_endpoint rt initial_globals Google l Hnew)
    as (_ & Hu & _ & Hq).
  split; [exact Hnew|]. split; [exact Hu|]. apply Hq. reflexivity.
Defined.
